(** * A3D::SqliteWrapper: connection management and statement execution

    Shallow embedding of [OfficialSqliteTest/SqliteWrapper.cpp] and
    [SqliteWrapper.h].  The SQL engine (the [sqlite3_a3d_*] entry points) is
    external to the wrapper: it is a parameter of the development, a record
    of transition functions over an abstract engine state.  Every call the
    wrapper makes to the engine, to its [std::shared_mutex], to
    [std::this_thread::sleep_for] and to [std::cout] is recorded in a trace,
    so that statements such as "a rollback is attempted before the handle is
    closed" can be read off the trace.

    The methods are first modelled as the sequential program they are, in a
    state-and-trace monad; an interleaving semantics built from the same
    pieces then lets several threads run [ExecStatement] on one object, and
    is shown to agree with the sequential model on a thread scheduled
    alone. *)

From stdpp Require Import base numbers list strings.

(** ** The part of the SQLite C API the wrapper relies on *)

Module Sqlite3.

(** Modelled from the spec: [sqlite3.h] is included by the header but is not
    part of the sources.  The spec names the status codes the core consumes
    (SUCCESS, BUSY, IO_ERROR and an "other" bucket); their numeric values and
    the open flags below are those of the SQLite C API. *)
Definition SQLITE_OK : Z := 0.
Definition SQLITE_BUSY : Z := 5.
Definition SQLITE_IOERR : Z := 10.
Definition SQLITE_OPEN_READWRITE : Z := 2.
Definition SQLITE_OPEN_CREATE : Z := 4.
Definition SQLITE_OPEN_FULLMUTEX : Z := 65536.

(** [sqlite3*]: an address, [nullptr] being 0. *)
Definition handle : Type := Z.
Bind Scope Z_scope with handle.
Definition nullptr : handle := 0%Z.

(** The [char** data] argument of one row-callback invocation: one entry per
    column, [None] for a NULL pointer. *)
Abbreviation row := (list (option string)).

(** The engine, over its own state [E].  [sqlite3_a3d_open_v2] returns the
    status code and the value it stores through [ppDb];
    [sqlite3_a3d_exec] returns the status code and the rows for which it
    invokes the callback, in order. *)
Record Engine (E : Type) : Type := {
  sqlite3_a3d_open_v2 : string -> Z -> E -> Z * handle * E;
  sqlite3_a3d_busy_timeout : handle -> Z -> E -> E;
  sqlite3_a3d_close_v2 : handle -> E -> E;
  sqlite3_a3d_exec : handle -> string -> E -> Z * list row * E;
  sqlite3_a3d_changes : handle -> E -> Z;
  sqlite3_a3d_get_autocommit : handle -> E -> Z;
  sqlite3_a3d_errmsg : handle -> E -> string
}.

Arguments sqlite3_a3d_open_v2 {E} _ _ _ _.
Arguments sqlite3_a3d_busy_timeout {E} _ _ _ _.
Arguments sqlite3_a3d_close_v2 {E} _ _ _.
Arguments sqlite3_a3d_exec {E} _ _ _ _.
Arguments sqlite3_a3d_changes {E} _ _ _.
Arguments sqlite3_a3d_get_autocommit {E} _ _ _.
Arguments sqlite3_a3d_errmsg {E} _ _ _.

End Sqlite3.

Export Sqlite3.

(** ** Observable actions *)

Inductive Event : Type :=
| EvOpen (path : string) (flags rc : Z) (h : handle)
| EvBusyTimeout (h : handle) (ms : Z)
| EvClose (h : handle)
| EvExec (h : handle) (sql : string) (rc : Z) (rows : list row)
| EvChanges (h : handle) (n : Z)
| EvAutocommit (h : handle) (v : Z)
| EvErrmsg (h : handle) (msg : string)
| EvLock
| EvUnlock
| EvLockShared
| EvUnlockShared
| EvSleep (ms : Z)
| EvCout (text : string).

(** What can be read off a trace: the rows handed to the callback, and how
    often a given kind of call was made. *)
Definition delivered (tr : list Event) : list row :=
  flat_map (fun ev => match ev with EvExec _ _ _ rows => rows | _ => [] end) tr.

Definition count_if (p : Event -> bool) (tr : list Event) : nat :=
  length (List.filter p tr).

Definition is_open (ev : Event) : bool :=
  match ev with EvOpen _ _ _ _ => true | _ => false end.
Definition is_close (ev : Event) : bool :=
  match ev with EvClose _ => true | _ => false end.
Definition is_exec (ev : Event) : bool :=
  match ev with EvExec _ _ _ _ => true | _ => false end.
(** The local backoff: [sleep_for(milliseconds(15))]. *)
Definition is_backoff (ev : Event) : bool :=
  match ev with EvSleep ms => bool_decide (ms = 15%Z) | _ => false end.

(** [Reconnect] is the only method that opens a handle once the object is
    constructed, and it does so exactly once per call. *)
Definition reconnects (tr : list Event) : nat := count_if is_open tr.
Definition submissions (tr : list Event) : nat := count_if is_exec tr.
Definition backoffs (tr : list Event) : nat := count_if is_backoff tr.

(** ** The object *)

(** The data members of [SqliteWrapper], except [m_dbConnectionMutex], whose
    operations appear in the trace (and whose state is modelled in the
    interleaving semantics further down). *)
Record SqliteWrapper : Type := {
  m_isOpened : bool;
  m_timeoutMs : Z;            (* unsigned int *)
  m_databasePath : string;
  m_database : handle
}.

Definition set_isOpened (b : bool) (o : SqliteWrapper) : SqliteWrapper :=
  {| m_isOpened := b; m_timeoutMs := m_timeoutMs o;
     m_databasePath := m_databasePath o; m_database := m_database o |}.

Definition set_timeoutMs (t : Z) (o : SqliteWrapper) : SqliteWrapper :=
  {| m_isOpened := m_isOpened o; m_timeoutMs := t;
     m_databasePath := m_databasePath o; m_database := m_database o |}.

Definition set_database (h : handle) (o : SqliteWrapper) : SqliteWrapper :=
  {| m_isOpened := m_isOpened o; m_timeoutMs := m_timeoutMs o;
     m_databasePath := m_databasePath o; m_database := h |}.

Arguments set_isOpened _ _ /.
Arguments set_timeoutMs _ _ /.
Arguments set_database _ _ /.

(** Conversion to [unsigned int]. *)
Definition to_unsigned (z : Z) : Z := (z mod 2 ^ 32)%Z.

(** [std::vector<std::vector<std::string>>]. *)
Abbreviation container := (list (list string)).

(** ** A monad for the wrapper's methods

    A method transforms the object and the engine state, produces a trace,
    and may fail to return ([None]) when its retry loop is not over after the
    given number of iterations. *)

Record World (E : Type) : Type := { self : SqliteWrapper; engine : E }.
Arguments self {E} _.
Arguments engine {E} _.
Arguments Build_World {E} _ _.

Definition M (E A : Type) : Type := World E -> option (A * World E * list Event).

Definition ret {E A} (a : A) : M E A := fun w => Some (a, w, []).

Definition bind {E A B} (m : M E A) (k : A -> M E B) : M E B := fun w =>
  match m w with
  | None => None
  | Some (a, w1, t1) =>
      match k a w1 with
      | None => None
      | Some (b, w2, t2) => Some (b, w2, t1 ++ t2)
      end
  end.

Notation "'let*' x ':=' m 'in' k" := (bind m (fun x => k))
  (at level 10, x pattern, m at level 100, k at level 200).
Notation "m ';;' k" := (bind m (fun _ => k))
  (at level 100, k at level 200, right associativity).

Definition emit {E} (ev : Event) : M E unit := fun w => Some (tt, w, [ev]).
Definition diverge {E A} : M E A := fun _ => None.
Definition member {E A} (f : SqliteWrapper -> A) : M E A := fun w => Some (f (self w), w, []).
Definition assign {E} (upd : SqliteWrapper -> SqliteWrapper) : M E unit :=
  fun w => Some (tt, {| self := upd (self w); engine := engine w |}, []).

(** The reference parameters and the locals of [ExecStatement] that the loop
    reads or writes.  [pnUpdatedRows] is [None] for [nullptr] and otherwise
    holds the current value of the pointee.  ([firstRowIteration] and
    [numberOfColumn] are declared by the source and never used.) *)
Record Frame : Type := {
  retValue : Z;
  results : container;
  pnUpdatedRows : option Z;
  alreadyTriedReconnecting : bool;
  done : bool;
  i : Z
}.

Definition set_retValue (v : Z) (f : Frame) : Frame :=
  {| retValue := v; results := results f; pnUpdatedRows := pnUpdatedRows f;
     alreadyTriedReconnecting := alreadyTriedReconnecting f; done := done f; i := i f |}.
Definition set_results (r : container) (f : Frame) : Frame :=
  {| retValue := retValue f; results := r; pnUpdatedRows := pnUpdatedRows f;
     alreadyTriedReconnecting := alreadyTriedReconnecting f; done := done f; i := i f |}.
Definition set_pnUpdatedRows (p : option Z) (f : Frame) : Frame :=
  {| retValue := retValue f; results := results f; pnUpdatedRows := p;
     alreadyTriedReconnecting := alreadyTriedReconnecting f; done := done f; i := i f |}.
Definition set_alreadyTriedReconnecting (b : bool) (f : Frame) : Frame :=
  {| retValue := retValue f; results := results f; pnUpdatedRows := pnUpdatedRows f;
     alreadyTriedReconnecting := b; done := done f; i := i f |}.
Definition set_done (b : bool) (f : Frame) : Frame :=
  {| retValue := retValue f; results := results f; pnUpdatedRows := pnUpdatedRows f;
     alreadyTriedReconnecting := alreadyTriedReconnecting f; done := b; i := i f |}.
Definition set_i (v : Z) (f : Frame) : Frame :=
  {| retValue := retValue f; results := results f; pnUpdatedRows := pnUpdatedRows f;
     alreadyTriedReconnecting := alreadyTriedReconnecting f; done := done f; i := v |}.

(** The frame on entry to the loop (lines 128-132). *)
Definition entry_frame (retValue0 : Z) (results0 : container) (pnUpdatedRows0 : option Z)
  : Frame :=
  {| retValue := retValue0; results := results0; pnUpdatedRows := pnUpdatedRows0;
     alreadyTriedReconnecting := false; done := false; i := 0 |}.

(** A bound on the iterations still to come when the budget is not zero:
    one reconnect, and the backoffs left when [retry] is set. *)
Definition budget (retry : bool) (f : Frame) : nat :=
  (if alreadyTriedReconnecting f then 0 else 1) +
  (if retry then Z.to_nat (10 - i f) else 0).

Arguments set_retValue _ _ /.
Arguments set_results _ _ /.
Arguments set_pnUpdatedRows _ _ /.
Arguments set_alreadyTriedReconnecting _ _ /.
Arguments set_done _ _ /.
Arguments set_i _ _ /.

Section Wrapper.

Context {E : Type} (eng : Engine E).

(** *** Engine calls, each leaving its event in the trace *)

(** [sqlite3_a3d_open_v2(m_databasePath.c_str(), &m_database, flags, nullptr)]:
    the engine's out-parameter is the member itself. *)
Definition open_database (flags : Z) : M E Z := fun w =>
  let path := m_databasePath (self w) in
  let r := sqlite3_a3d_open_v2 eng path flags (engine w) in
  Some (r.1.1, {| self := set_database r.1.2 (self w); engine := r.2 |},
        [EvOpen path flags r.1.1 r.1.2]).

Definition busy_timeout (ms : Z) : M E unit := fun w =>
  let h := m_database (self w) in
  Some (tt, {| self := self w; engine := sqlite3_a3d_busy_timeout eng h ms (engine w) |},
        [EvBusyTimeout h ms]).

Definition close_database : M E unit := fun w =>
  let h := m_database (self w) in
  Some (tt, {| self := self w; engine := sqlite3_a3d_close_v2 eng h (engine w) |}, [EvClose h]).

Definition exec (sql : string) : M E (Z * list row) := fun w =>
  let h := m_database (self w) in
  let r := sqlite3_a3d_exec eng h sql (engine w) in
  Some (r.1, {| self := self w; engine := r.2 |}, [EvExec h sql r.1.1 r.1.2]).

Definition changes : M E Z := fun w =>
  let h := m_database (self w) in
  let n := sqlite3_a3d_changes eng h (engine w) in
  Some (n, w, [EvChanges h n]).

Definition get_autocommit : M E Z := fun w =>
  let h := m_database (self w) in
  let v := sqlite3_a3d_get_autocommit eng h (engine w) in
  Some (v, w, [EvAutocommit h v]).

Definition errmsg : M E string := fun w =>
  let h := m_database (self w) in
  let s := sqlite3_a3d_errmsg eng h (engine w) in
  Some (s, w, [EvErrmsg h s]).

Definition OPEN_FLAGS : Z :=
  Z.lor (Z.lor SQLITE_OPEN_READWRITE SQLITE_OPEN_CREATE) SQLITE_OPEN_FULLMUTEX.

(** *** Connection management (private) *)

Definition InitDatabase : M E bool :=
  let* db := member m_database in
  if decide (db ≠ nullptr) then ret false
  else
    let* rc := open_database OPEN_FLAGS in
    if decide (SQLITE_OK ≠ rc) then ret false
    else
      busy_timeout 2000;;
      assign (set_isOpened true);;
      member m_isOpened.

Definition Reconnect : M E bool :=
  emit EvLock;;
  close_database;;
  let* rc := open_database OPEN_FLAGS in
  if decide (SQLITE_OK ≠ rc) then
    emit EvUnlock;; ret false
  else
    emit EvUnlock;; ret true.

(** *** Public methods not involving the engine *)

Definition IsReady : M E bool := member m_isOpened.

Definition SetTimeout (timeoutMs : Z) : M E unit :=
  assign (set_timeoutMs (to_unsigned timeoutMs)).

(** *** Result collection *)

Definition cell (d : option string) : string :=
  match d with
  | Some s => s
  | None => EmptyString          (* NULL value in SQLite column *)
  end.

(** [push_back(s)] on the vector at index [i] of the container. *)
Definition push_back_at (i : nat) (s : string) (results : container) : container :=
  alter (fun column => column ++ [s]) i results.

(** The row callback handed to [sqlite3_a3d_exec].  [count] is the engine's
    column count and [data] its array of [count] values; the engine never
    reads past it, so the default of the lookup is not reached.  The callback
    always returns 0, which tells the engine to carry on. *)
Definition getResultsCallBack (results : container) (count : nat) (data : row)
  : Z * container :=
  let resized := resize count [] results in
  (0%Z, foldl (fun res i => push_back_at i (cell (default None (data !! i))) res)
              resized (seq 0 count)).

(** What one [sqlite3_a3d_exec] leaves in the container: the callback is
    invoked for each row in turn, with that row's column count. *)
Definition collect (rows : list row) (results : container) : container :=
  foldl (fun res data => (getResultsCallBack res (length data) data).2) results rows.

(** *** Statement execution *)

(** Lines 136-144: zero the slot and take the guard, exclusively when a
    row count is requested and shared otherwise. *)
Definition acquire_guard (f : Frame) : M E Frame :=
  match pnUpdatedRows f with
  | Some _ => emit EvLock;; ret (set_pnUpdatedRows (Some 0%Z) f)
  | None => emit EvLockShared;; ret f
  end.

(** Line 146. *)
Definition submit (statementText : string) (f : Frame) : M E Frame :=
  let* r := exec statementText in
  ret (set_retValue r.1 (set_results (collect r.2 (results f)) f)).

(** Lines 148-162: read the change counter after a successful submission
    when it was asked for, and release the guard. *)
Definition release_guard (f : Frame) : M E Frame :=
  match pnUpdatedRows f with
  | Some _ =>
      let* f :=
        (if decide (retValue f = 0%Z) then
           let* n := changes in ret (set_pnUpdatedRows (Some n) f)
         else ret f) in
      emit EvUnlock;; ret f
  | None => emit EvUnlockShared;; ret f
  end.

(** [done = !Reconnect(); alreadyTriedReconnecting = true;] *)
Definition reconnect_once (f : Frame) : M E Frame :=
  let* ok := Reconnect in
  ret (set_alreadyTriedReconnecting true (set_done (negb ok) f)).

(** The condition [m_timeoutMs == 0 || retry && i++ < 10] with its side
    effect on [i]: the increment happens only when the first disjunct is
    false and [retry] is true.  ([i] is incremented at most twelve times in a
    call, so the [int] never overflows.) *)
Definition busy_retry (timeoutMs : Z) (retry : bool) (f : Frame) : bool * Frame :=
  if decide (timeoutMs = 0%Z) then (true, f)
  else if retry then (bool_decide (i f < 10)%Z, set_i (i f + 1)%Z f)
  else (false, f).

(** Lines 164-206: the [switch] on the status code. *)
Definition interpret (retry : bool) (f : Frame) : M E Frame :=
  if decide (retValue f = SQLITE_BUSY) then
    let* timeoutMs := member m_timeoutMs in
    let '(again, f) := busy_retry timeoutMs retry f in
    if again then emit (EvSleep 15);; ret f
    else if alreadyTriedReconnecting f then ret (set_done true f)
    else reconnect_once f
  else if decide (retValue f = 0%Z) then ret (set_done true f)
  else if decide (retValue f = SQLITE_IOERR) then
    if alreadyTriedReconnecting f then ret (set_done true f)
    else reconnect_once f
  else
    let* msg := errmsg in
    emit (EvCout ("WrapperExecError: " ++ msg));;
    if alreadyTriedReconnecting f then ret (set_done true f)
    else reconnect_once f.

(** The same [switch] stopped where it would call [Reconnect]: the frame it
    leaves and whether [Reconnect] is to be called.  The interleaving
    semantics below takes the switch and the reconnect as separate steps. *)
Definition escalate (f : Frame) : M E (Frame * bool) :=
  if alreadyTriedReconnecting f then ret (set_done true f, false) else ret (f, true).

Definition switch (retry : bool) (f : Frame) : M E (Frame * bool) :=
  if decide (retValue f = SQLITE_BUSY) then
    let* timeoutMs := member m_timeoutMs in
    let '(again, f) := busy_retry timeoutMs retry f in
    if again then emit (EvSleep 15);; ret (f, false)
    else escalate f
  else if decide (retValue f = 0%Z) then ret (set_done true f, false)
  else if decide (retValue f = SQLITE_IOERR) then escalate f
  else
    let* msg := errmsg in
    emit (EvCout ("WrapperExecError: " ++ msg));;
    escalate f.

(** Lines 136-162: the guarded window of one iteration. *)
Definition submission (statementText : string) (f : Frame) : M E Frame :=
  let* f := acquire_guard f in
  let* f := submit statementText f in
  release_guard f.

(** One iteration of the [while (!done)] loop. *)
Definition ExecStatement_body (statementText : string) (retry : bool) (f : Frame) : M E Frame :=
  let* f := submission statementText f in
  interpret retry f.

Fixpoint ExecStatement_loop (fuel : nat) (statementText : string) (retry : bool)
    (f : Frame) : M E Frame :=
  if done f then ret f
  else
    match fuel with
    | O => diverge
    | S fuel =>
        let* f := ExecStatement_body statementText retry f in
        ExecStatement_loop fuel statementText retry f
    end.

(** What a call hands back: the returned [bool] and the final values of the
    reference and pointer parameters. *)
Record Outcome : Type := {
  returned : bool;
  out_retValue : Z;
  out_results : container;
  out_pnUpdatedRows : option Z
}.

Definition ExecStatement (fuel : nat) (statementText : string) (retValue0 : Z)
    (results0 : container) (retry : bool) (pnUpdatedRows0 : option Z) : M E Outcome :=
  let* ready := IsReady in
  if negb ready then
    ret {| returned := false; out_retValue := retValue0; out_results := results0;
           out_pnUpdatedRows := pnUpdatedRows0 |}
  else
    let* f := ExecStatement_loop fuel statementText retry
                (entry_frame retValue0 results0 pnUpdatedRows0) in
    ret {| returned := bool_decide (retValue f = 0%Z); out_retValue := retValue f;
           out_results := results f; out_pnUpdatedRows := pnUpdatedRows f |}.

(** The overloads.  Their [retValue], [results] and [nUpdatedRows] are the
    caller's or fresh locals; an uninitialised [int] is passed as [junk]. *)
Definition ExecStatement_rc (fuel : nat) (statementText : string) (retValue0 : Z) : M E Outcome :=
  ExecStatement fuel statementText retValue0 [] true None.

Definition ExecStatement_rc_rows (fuel : nat) (statementText : string)
    (retValue0 nUpdatedRows0 : Z) : M E Outcome :=
  ExecStatement fuel statementText retValue0 [] true (Some nUpdatedRows0).

Definition ExecStatement_text (fuel : nat) (junk : Z) (statementText : string) : M E bool :=
  let* o := ExecStatement fuel statementText junk [] true None in ret (returned o).

(** *** Transactions *)

Definition BeginTransaction (fuel : nat) (junk : Z) : M E bool :=
  ExecStatement_text fuel junk "BEGIN TRANSACTION".

Definition BeginExclusiveTransaction (fuel : nat) (junk : Z) : M E bool :=
  ExecStatement_text fuel junk "BEGIN EXCLUSIVE TRANSACTION".

Definition BeginImmediateTransaction (fuel : nat) : M E bool :=
  let* o := ExecStatement fuel "BEGIN IMMEDIATE TRANSACTION" 0 [] true None in
  ret (returned o).

Definition EndTransaction (fuel : nat) : M E bool :=
  let* o := ExecStatement fuel "COMMIT" 0 [] true None in ret (returned o).

Definition RollBackTransaction (fuel : nat) : M E bool :=
  let* o := ExecStatement fuel "ROLLBACK TRANSACTION" 0 [] true None in ret (returned o).

Definition IsInTransaction : M E bool :=
  let* v := get_autocommit in ret (bool_decide (0%Z = v)).

Definition LastErrorMessage : M E string := errmsg.

(** *** Closing *)

Definition DestroyDatabase (fuel : nat) : M E bool :=
  let* db := member m_database in
  let* opened := member m_isOpened in
  if bool_decide (db = nullptr) || negb opened then ret false
  else
    let* inTransaction := IsInTransaction in
    (if inTransaction then
       let* rolledBack := RollBackTransaction fuel in
       if negb rolledBack then
         emit (EvCout "DestroyDatabase: could not rollback transaction")
       else ret tt
     else ret tt);;
    close_database;;
    assign (set_isOpened false);;
    assign (set_database nullptr);;
    ret true.

(** *** Engines of interest *)

(** Every submission is answered BUSY. *)
Definition always_busy : Prop :=
  forall h sql e, (sqlite3_a3d_exec eng h sql e).1.1 = SQLITE_BUSY.

(** The next [n] submissions of [sql] on [h] are answered BUSY. *)
Fixpoint busy_streak (n : nat) (h : handle) (sql : string) (e : E) : Prop :=
  match n with
  | O => True
  | S n =>
      (sqlite3_a3d_exec eng h sql e).1.1 = SQLITE_BUSY /\
      busy_streak n h sql (sqlite3_a3d_exec eng h sql e).2
  end.

(** [~SqliteWrapper] *)
Definition destructor (fuel : nat) : M E unit :=
  DestroyDatabase fuel;; ret tt.

End Wrapper.

(** *** Construction *)

(** The two constructors, run on the engine state they find.  [LINUX]
    stands for the preprocessor symbol of the same name. *)
Definition SqliteWrapper_new {E} (eng : Engine E) (LINUX : bool) (databasePath : string)
    (e : E) : option (bool * World E * list Event) :=
  ((if LINUX then SetTimeout 30000 else ret tt);;
   InitDatabase eng)
    {| self := {| m_isOpened := false; m_timeoutMs := 3000;
                  m_databasePath := databasePath; m_database := nullptr |};
       engine := e |}.

Definition SqliteWrapper_new_timeout {E} (eng : Engine E) (databasePath : string)
    (timeoutMs : Z) (e : E) : option (bool * World E * list Event) :=
  InitDatabase eng
    {| self := {| m_isOpened := false; m_timeoutMs := to_unsigned timeoutMs;
                  m_databasePath := databasePath; m_database := nullptr |};
       engine := e |}.

(** ** Interleaving semantics

    Several threads run [ExecStatement] on one object while others call
    [SetTimeout].  A thread advances by one guard operation, one engine call
    or one [switch] at a time; the steps are the pieces of the sequential
    model above, run on the shared object and engine.  The guard is a
    [std::shared_mutex]: [lock] waits until nobody holds it, [lock_shared]
    until nobody holds it exclusively. *)

Record shared_mutex : Type := { exclusive : bool; sharers : nat }.

Definition unlocked : shared_mutex := {| exclusive := false; sharers := 0 |}.

Definition lock (m : shared_mutex) : option shared_mutex :=
  if negb (exclusive m) && bool_decide (sharers m = 0)
  then Some {| exclusive := true; sharers := sharers m |}
  else None.

Definition unlock (m : shared_mutex) : shared_mutex :=
  {| exclusive := false; sharers := sharers m |}.

Definition lock_shared (m : shared_mutex) : option shared_mutex :=
  if negb (exclusive m)
  then Some {| exclusive := false; sharers := S (sharers m) |}
  else None.

Definition unlock_shared (m : shared_mutex) : shared_mutex :=
  {| exclusive := exclusive m; sharers := pred (sharers m) |}.

(** Where a thread is in [ExecStatement] (and in the [Reconnect] it calls). *)
Inductive Pc : Type :=
| AtEntry                      (* line 125 *)
| AtAcquire                    (* lines 136-144, the guard not yet taken *)
| AtExec                       (* line 146, inside the guard *)
| AtChanges                    (* line 152, inside the exclusive guard *)
| AtRelease                    (* lines 157/161 *)
| AtSwitch                     (* line 164, outside the guard *)
| AtReconnectLock              (* line 37 *)
| AtReconnectClose             (* line 38 *)
| AtReconnectOpen              (* line 39 *)
| AtReconnectUnlock (ok : bool)    (* lines 41/44 *)
| Returned (result : bool).

Record Thread : Type := {
  pc : Pc;
  statementText : string;
  retry : bool;
  frame : Frame
}.

Definition at_pc (p : Pc) (f : Frame) (th : Thread) : Thread :=
  {| pc := p; statementText := statementText th; retry := retry th; frame := f |}.

(** The loop test and the [return]. *)
Definition loop_head (f : Frame) : Pc :=
  if done f then Returned (bool_decide (retValue f = 0%Z)) else AtAcquire.

(** A call about to be made. *)
Definition call (statementText : string) (retValue0 : Z) (results0 : container)
    (retry : bool) (pnUpdatedRows0 : option Z) : Thread :=
  {| pc := AtEntry; statementText := statementText; retry := retry;
     frame := entry_frame retValue0 results0 pnUpdatedRows0 |}.

Section Interleaving.

Context {E : Type} (eng : Engine E).

(** One step of a thread; [None] when the thread waits for the guard or has
    returned. *)
Definition thread_step (th : Thread) (m : shared_mutex) (w : World E)
  : option (Thread * shared_mutex * World E * list Event) :=
  let f := frame th in
  match pc th with
  | AtEntry =>
      if m_isOpened (self w) then Some (at_pc AtAcquire f th, m, w, [])
      else Some (at_pc (Returned false) f th, m, w, [])
  | AtAcquire =>
      match pnUpdatedRows f with
      | Some _ =>
          m' ← lock m;
          Some (at_pc AtExec (set_pnUpdatedRows (Some 0%Z) f) th, m', w, [EvLock])
      | None =>
          m' ← lock_shared m;
          Some (at_pc AtExec f th, m', w, [EvLockShared])
      end
  | AtExec =>
      match submit eng (statementText th) f w with
      | Some (f', w', tr) =>
          match pnUpdatedRows f' with
          | Some _ =>
              if decide (retValue f' = 0%Z) then Some (at_pc AtChanges f' th, m, w', tr)
              else Some (at_pc AtRelease f' th, m, w', tr)
          | None => Some (at_pc AtRelease f' th, m, w', tr)
          end
      | None => None
      end
  | AtChanges =>
      match changes eng w with
      | Some (n, w', tr) =>
          Some (at_pc AtRelease (set_pnUpdatedRows (Some n) f) th, m, w', tr)
      | None => None
      end
  | AtRelease =>
      match pnUpdatedRows f with
      | Some _ => Some (at_pc AtSwitch f th, unlock m, w, [EvUnlock])
      | None => Some (at_pc AtSwitch f th, unlock_shared m, w, [EvUnlockShared])
      end
  | AtSwitch =>
      match switch eng (retry th) f w with
      | Some ((f', true), w', tr) => Some (at_pc AtReconnectLock f' th, m, w', tr)
      | Some ((f', false), w', tr) => Some (at_pc (loop_head f') f' th, m, w', tr)
      | None => None
      end
  | AtReconnectLock =>
      m' ← lock m;
      Some (at_pc AtReconnectClose f th, m', w, [EvLock])
  | AtReconnectClose =>
      match close_database eng w with
      | Some (_, w', tr) => Some (at_pc AtReconnectOpen f th, m, w', tr)
      | None => None
      end
  | AtReconnectOpen =>
      match open_database eng OPEN_FLAGS w with
      | Some (rc, w', tr) =>
          Some (at_pc (AtReconnectUnlock (bool_decide (rc = SQLITE_OK))) f th, m, w', tr)
      | None => None
      end
  | AtReconnectUnlock ok =>
      let f' := set_alreadyTriedReconnecting true (set_done (negb ok) f) in
      Some (at_pc (loop_head f') f' th, unlock m, w, [EvUnlock])
  | Returned _ => None
  end.

(** The whole system: the object and the engine, the guard, the threads
    inside [ExecStatement], and who did what so far. *)
Record Config : Type := {
  shared : World E;
  guard : shared_mutex;
  threads : list Thread;
  history : list (nat * Event)
}.

Definition boot (w : World E) (ths : list Thread) : Config :=
  {| shared := w; guard := unlocked; threads := ths; history := [] |}.

(** What the scheduler can do next: let thread [t] take a step, or let some
    other thread call [SetTimeout]. *)
Inductive Move : Type :=
| Run (t : nat)
| CallSetTimeout (timeoutMs : Z).

Definition step (c : Config) (mv : Move) : option Config :=
  match mv with
  | Run t =>
      match threads c !! t with
      | Some th =>
          match thread_step th (guard c) (shared c) with
          | Some (th', m', w', tr) =>
              Some {| shared := w'; guard := m'; threads := <[t := th']> (threads c);
                      history := history c ++ map (pair t) tr |}
          | None => None
          end
      | None => None
      end
  | CallSetTimeout ms =>
      match SetTimeout ms (shared c) with
      | Some (_, w', _) =>
          Some {| shared := w'; guard := guard c; threads := threads c;
                  history := history c |}
      | None => None
      end
  end.

(** A move that cannot be made (the thread waits or has returned) leaves the
    system as it is. *)
Definition run (sched : list Move) (c : Config) : Config :=
  foldl (fun c mv => default c (step c mv)) c sched.

(** A thread running on its own. *)
Inductive thread_steps :
  Thread -> shared_mutex -> World E -> list Event ->
  Thread -> shared_mutex -> World E -> Prop :=
| steps_refl th m w : thread_steps th m w [] th m w
| steps_cons th m w t1 th1 m1 w1 t2 th2 m2 w2 :
    thread_step th m w = Some (th1, m1, w1, t1) ->
    thread_steps th1 m1 w1 t2 th2 m2 w2 ->
    thread_steps th m w (t1 ++ t2) th2 m2 w2.

(** What the spec says of a call already in its retry loop: a [SetTimeout]
    slipped into the schedule makes no difference to thread [t]. *)
Definition unaffected_by_SetTimeout (c0 : Config) (t : nat)
    (before : list Move) (timeoutMs : Z) (after : list Move) : Prop :=
  threads (run (before ++ CallSetTimeout timeoutMs :: after) c0) !! t =
  threads (run (before ++ after) c0) !! t.

End Interleaving.

(** The thread is inside the guarded window of lines 146-157. *)
Definition in_window (th : Thread) : bool :=
  match pc th with
  | AtExec | AtChanges | AtRelease => true
  | _ => false
  end.

(** The thread is inside the window and asked for the row count. *)
Definition in_counting_window (th : Thread) : bool :=
  in_window th && bool_decide (is_Some (pnUpdatedRows (frame th))).

(** Who holds the guard, and how. *)
Definition holds_exclusive (th : Thread) : bool :=
  match pc th with
  | AtExec | AtRelease => bool_decide (is_Some (pnUpdatedRows (frame th)))
  | AtChanges | AtReconnectClose | AtReconnectOpen | AtReconnectUnlock _ => true
  | _ => false
  end.

Definition holds_shared (th : Thread) : bool :=
  match pc th with
  | AtExec | AtRelease => bool_decide (pnUpdatedRows (frame th) = None)
  | _ => false
  end.

Definition tally (p : Thread -> bool) (ths : list Thread) : nat :=
  length (List.filter p ths).

(** The guard counts its holders right: as many sharers as threads inside a
    shared window, held exclusively iff one thread is inside an exclusive
    one, and never both. *)
Definition guard_invariant (m : shared_mutex) (ths : list Thread) : Prop :=
  sharers m = tally holds_shared ths /\
  tally holds_exclusive ths = (if exclusive m then 1 else 0) /\
  (exclusive m = true -> sharers m = 0).

Arguments Config : clear implicits.

(** ** Properties the spec words, as predicates *)

(** The layout the spec gives the tabular result: one entry per callback
    invocation, each with as many cells as the invocation reported columns. *)
Definition row_per_invocation (rows : list row) (res : container) : Prop :=
  length res = length rows /\
  forall k data, rows !! k = Some data -> length <$> res !! k = Some (length data).

(** A trace in which a rollback is submitted and a handle is closed
    afterwards. *)
Definition rolls_back_before_close (tr : list Event) : Prop :=
  exists pre h rc rows post h',
    tr = pre ++ EvExec h "ROLLBACK TRANSACTION" rc rows :: post /\ EvClose h' ∈ post.

(** The engine handle is non-null iff the open flag is true. *)
Definition handle_flag_invariant (o : SqliteWrapper) : Prop :=
  m_database o ≠ nullptr <-> m_isOpened o = true.

(** The world left by [DestroyDatabase] once it has closed the handle. *)
Definition closed {E} (eng : Engine E) (w : World E) : World E :=
  {| self := set_database nullptr (set_isOpened false (self w));
     engine := sqlite3_a3d_close_v2 eng (m_database (self w)) (engine w) |}.

(** ** Concrete connections and engines *)

(** An open connection on handle 1 with the given budget. *)
Definition connected {E} (timeoutMs : Z) (e : E) : World E :=
  {| self := {| m_isOpened := true; m_timeoutMs := timeoutMs;
                m_databasePath := "a3d.db"; m_database := 1%Z |};
     engine := e |}.

(** An engine whose file stays locked: every submission is answered BUSY.
    Its state counts the submissions, and every open is answered [reopen]. *)
Module Busy.

Definition api (reopen : Z * handle) : Engine nat := {|
  sqlite3_a3d_open_v2 := fun _ _ n => (reopen, n);
  sqlite3_a3d_busy_timeout := fun _ _ n => n;
  sqlite3_a3d_close_v2 := fun _ n => n;
  sqlite3_a3d_exec := fun _ _ n => (SQLITE_BUSY, [], S n);
  sqlite3_a3d_changes := fun _ _ => 0%Z;
  sqlite3_a3d_get_autocommit := fun _ _ => 1%Z;
  sqlite3_a3d_errmsg := fun _ _ => "database is locked"
|}.

End Busy.

(** ** A scripted engine

    A concrete engine for running the wrapper: it answers the submissions
    and the opens from two scripts and falls back on fixed answers when a
    script is exhausted. *)

Module Scripted.

Local Open Scope Z_scope.

Record Script : Type := {
  execs : list (Z * list row);
  exec_default : Z * list row;
  opens : list (Z * handle);
  open_default : Z * handle;
  autocommit : Z;
  nchanges : Z;
  message : string
}.

Definition next_exec (s : Script) : Z * list row * Script :=
  match execs s with
  | [] => (exec_default s, s)
  | r :: rest =>
      (r, {| execs := rest; exec_default := exec_default s; opens := opens s;
             open_default := open_default s; autocommit := autocommit s;
             nchanges := nchanges s; message := message s |})
  end.

Definition next_open (s : Script) : Z * handle * Script :=
  match opens s with
  | [] => (open_default s, s)
  | r :: rest =>
      (r, {| execs := execs s; exec_default := exec_default s; opens := rest;
             open_default := open_default s; autocommit := autocommit s;
             nchanges := nchanges s; message := message s |})
  end.

Definition api : Engine Script := {|
  sqlite3_a3d_open_v2 := fun _ _ s => next_open s;
  sqlite3_a3d_busy_timeout := fun _ _ s => s;
  sqlite3_a3d_close_v2 := fun _ s => s;
  sqlite3_a3d_exec := fun _ _ s => next_exec s;
  sqlite3_a3d_changes := fun _ s => nchanges s;
  sqlite3_a3d_get_autocommit := fun _ s => autocommit s;
  sqlite3_a3d_errmsg := fun _ s => message s
|}.

(** A script: the answers to the submissions, the answers to the opens, and
    the autocommit indicator.  Past the scripts, submissions and opens
    succeed, opens with handle 2. *)
Definition make (execs : list (Z * list row)) (opens : list (Z * handle))
    (autocommit : Z) : Script :=
  {| execs := execs; exec_default := (SQLITE_OK, []); opens := opens;
     open_default := (SQLITE_OK, 2); autocommit := autocommit; nchanges := 0;
     message := "not an error" |}.

End Scripted.

(** ** More to read off a trace, and more engines *)

(** The status codes of the submissions, the texts submitted and the
    handles stored by the opens, in order. *)
Definition statuses (tr : list Event) : list Z :=
  flat_map (fun ev => match ev with EvExec _ _ rc _ => [rc] | _ => [] end) tr.
Definition texts (tr : list Event) : list string :=
  flat_map (fun ev => match ev with EvExec _ sql _ _ => [sql] | _ => [] end) tr.
Definition opened (tr : list Event) : list handle :=
  flat_map (fun ev => match ev with EvOpen _ _ _ h => [h] | _ => [] end) tr.

Definition is_cout (ev : Event) : bool :=
  match ev with EvCout _ => true | _ => false end.
Definition is_busy_timeout (ev : Event) : bool :=
  match ev with EvBusyTimeout _ _ => true | _ => false end.
Definition is_autocommit (ev : Event) : bool :=
  match ev with EvAutocommit _ _ => true | _ => false end.

(** The status codes the [switch] reports on the standard output: all but
    BUSY, OK and IOERR (the [default] label of the [switch]). *)
Definition is_logged (rc : Z) : bool :=
  negb (bool_decide (rc = SQLITE_BUSY) || bool_decide (rc = 0%Z) ||
        bool_decide (rc = SQLITE_IOERR)).

(** How the guard is held by the thread whose trace is read. *)
Inductive Hold : Type := Free | HeldShared | HeldExclusive.

(** What each action requires of the guard and does to it: a submission
    needs a hold, the change counter and the close and open of a reconnect an
    exclusive one, a sleep none; the lock operations must alternate. *)
Definition guard_step (s : Hold) (ev : Event) : option Hold :=
  match ev, s with
  | EvLock, Free => Some HeldExclusive
  | EvLockShared, Free => Some HeldShared
  | EvUnlock, HeldExclusive => Some Free
  | EvUnlockShared, HeldShared => Some Free
  | EvExec _ _ _ _, (HeldShared | HeldExclusive) => Some s
  | (EvChanges _ _ | EvClose _ | EvOpen _ _ _ _), HeldExclusive => Some s
  | EvSleep _, Free => Some s
  | (EvBusyTimeout _ _ | EvAutocommit _ _ | EvErrmsg _ _ | EvCout _), _ => Some s
  | _, _ => None
  end.

Fixpoint guard_run (s : Hold) (tr : list Event) : option Hold :=
  match tr with
  | [] => Some s
  | ev :: tr =>
      match guard_step s ev with
      | Some s' => guard_run s' tr
      | None => None
      end
  end.

(** The thread is inside [Reconnect], between its lock and its unlock. *)
Definition in_reconnect (th : Thread) : bool :=
  match pc th with
  | AtReconnectClose | AtReconnectOpen | AtReconnectUnlock _ => true
  | _ => false
  end.

(** The thread has not returned from its call. *)
Definition running (th : Thread) : bool :=
  match pc th with
  | Returned _ => false
  | _ => true
  end.

(** The same world with another retry budget. *)
Definition with_budget {E} (timeoutMs : Z) (w : World E) : World E :=
  {| self := set_timeoutMs timeoutMs (self w); engine := engine w |}.


(** An engine that answers every submission with the same status and no
    row, and every open with [reopen].  Its state counts the submissions. *)
Module Steady.

Definition api (status : Z) (reopen : Z * handle) : Engine nat := {|
  sqlite3_a3d_open_v2 := fun _ _ n => (reopen, n);
  sqlite3_a3d_busy_timeout := fun _ _ n => n;
  sqlite3_a3d_close_v2 := fun _ n => n;
  sqlite3_a3d_exec := fun _ _ n => (status, [], S n);
  sqlite3_a3d_changes := fun _ _ => 0%Z;
  sqlite3_a3d_get_autocommit := fun _ _ => 0%Z;
  sqlite3_a3d_errmsg := fun _ _ => "disk I/O error"
|}.

End Steady.



(** * Properties *)

(** ** The row callback *)

Section Callback.

Implicit Types (res : container) (data : row) (rows : list row).

Lemma push_back_fold_lookup (g : nat -> string) res (a k j : nat) :
  foldl (fun r i => push_back_at i (g i) r) res (seq a k) !! j =
  if bool_decide (a <= j < a + k) then (fun col => col ++ [g j]) <$> res !! j else res !! j.
Proof.
  revert a res. induction k as [|k IH]; intros a res; simpl.
  - rewrite bool_decide_eq_false_2 by lia. done.
  - rewrite IH. unfold push_back_at.
    destruct (decide (a = j)) as [->|Hne].
    + rewrite bool_decide_eq_false_2 by lia.
      rewrite bool_decide_eq_true_2 by lia. apply list_lookup_alter_eq.
    + rewrite list_lookup_alter_ne by done.
      destruct (decide (S a <= j < S a + k)).
      * rewrite !bool_decide_eq_true_2 by lia. done.
      * rewrite !bool_decide_eq_false_2 by lia. done.
Qed.

Lemma push_back_fold_length (g : nat -> string) res (a k : nat) :
  length (foldl (fun r i => push_back_at i (g i) r) res (seq a k)) = length res.
Proof.
  revert a res. induction k as [|k IH]; intros a res; simpl; [done|].
  rewrite IH. unfold push_back_at. apply length_alter.
Qed.

Lemma getResultsCallBack_returns_0 res count data :
  (getResultsCallBack res count data).1 = 0%Z.
Proof. done. Qed.

Lemma getResultsCallBack_length res count data :
  length (getResultsCallBack res count data).2 = count.
Proof.
  unfold getResultsCallBack; simpl.
  rewrite (push_back_fold_length (fun i => cell (default None (data !! i)))).
  apply length_resize.
Qed.

(** Column [j] of the container after one invocation: what it held before
    (nothing if the container had fewer columns) followed by the new cell. *)
Lemma getResultsCallBack_lookup res count data j :
  j < count ->
  (getResultsCallBack res count data).2 !! j =
  Some (default [] (res !! j) ++ [cell (default None (data !! j))]).
Proof.
  intros Hj. unfold getResultsCallBack; simpl.
  rewrite (push_back_fold_lookup (fun i => cell (default None (data !! i)))).
  rewrite bool_decide_eq_true_2 by lia.
  rewrite resize_spec.
  destruct (res !! j) as [col|] eqn:Hres.
  - rewrite lookup_app_l by (rewrite length_take; apply lookup_lt_Some in Hres; lia).
    rewrite lookup_take_lt by done. rewrite Hres. done.
  - apply lookup_ge_None in Hres.
    rewrite lookup_app_r by (rewrite length_take; lia).
    rewrite lookup_replicate_2 by (rewrite length_take; lia). done.
Qed.

Lemma collect_app rows1 rows2 res :
  collect (rows1 ++ rows2) res = collect rows2 (collect rows1 res).
Proof. unfold collect. apply foldl_app. Qed.

Lemma collect_snoc rows data res :
  collect (rows ++ [data]) res = (getResultsCallBack (collect rows res) (length data) data).2.
Proof. rewrite collect_app. done. Qed.

(** After at least one invocation the container has as many entries as the
    last invocation had columns. *)
Lemma collect_length_last rows data res :
  length (collect (rows ++ [data]) res) = length data.
Proof. rewrite collect_snoc. apply getResultsCallBack_length. Qed.

(** When every invocation has a column [j], entry [j] of the container is
    that column: its former content followed by one cell per invocation, in
    order. *)
Lemma collect_lookup rows res j :
  Forall (fun data => j < length data) rows -> rows ≠ [] ->
  collect rows res !! j =
  Some (default [] (res !! j) ++ map (fun data => cell (default None (data !! j))) rows).
Proof.
  intros Hall Hne. induction rows as [|data rows IH] using rev_ind; [done|].
  apply Forall_app in Hall as [Hall Hd]. rewrite Forall_singleton in Hd.
  rewrite collect_snoc, getResultsCallBack_lookup by done.
  rewrite map_app; simpl. rewrite (assoc_L (++)). do 2 f_equal.
  destruct rows as [|d0 rows0] eqn:Hrows; [by rewrite app_nil_r|].
  rewrite <- Hrows in *. rewrite IH by (subst; done). done.
Qed.

End Callback.

(** ** Traces *)

Lemma delivered_app tr1 tr2 : delivered (tr1 ++ tr2) = delivered tr1 ++ delivered tr2.
Proof. unfold delivered. apply flat_map_app. Qed.

Lemma count_if_app p tr1 tr2 : count_if p (tr1 ++ tr2) = count_if p tr1 + count_if p tr2.
Proof. unfold count_if. rewrite List.filter_app, length_app. done. Qed.

Lemma reconnects_app tr1 tr2 : reconnects (tr1 ++ tr2) = reconnects tr1 + reconnects tr2.
Proof. apply count_if_app. Qed.

(** ** The monad *)

Lemma bind_Some {E A B} (m : M E A) (k : A -> M E B) w b w2 t :
  bind m k w = Some (b, w2, t) <->
  exists a w1 t1 t2, m w = Some (a, w1, t1) /\ k a w1 = Some (b, w2, t2) /\ t = t1 ++ t2.
Proof.
  unfold bind. split.
  - destruct (m w) as [[[a w1] t1]|]; [|done].
    destruct (k a w1) as [[[b' w2'] t2]|] eqn:Hk; [|done].
    intros [= <- <- <-]. by exists a, w1, t1, t2.
  - intros (a & w1 & t1 & t2 & -> & -> & ->). done.
Qed.

Lemma bind_Some_l {E A B} (m : M E A) (k : A -> M E B) w a w1 t1 :
  m w = Some (a, w1, t1) ->
  bind m k w = match k a w1 with
               | None => None
               | Some (b, w2, t2) => Some (b, w2, t1 ++ t2)
               end.
Proof. unfold bind. by intros ->. Qed.

Lemma bind_total {E A B} (m : M E A) (k : A -> M E B) w :
  is_Some (m w) -> (forall a w1, is_Some (k a w1)) -> is_Some (bind m k w).
Proof.
  intros [[[a w1] t1] Hm] Hk. unfold bind. rewrite Hm.
  destruct (Hk a w1) as [[[b w2] t2] ->]. done.
Qed.

Section Execution.

Context {E : Type} (eng : Engine E).

Implicit Types (f : Frame) (w : World E) (tr : list Event).

(** The guarded window, spelled out. *)
Lemma submission_eq sql f w :
  submission eng sql f w =
  let h := m_database (self w) in
  let r := sqlite3_a3d_exec eng h sql (engine w) in
  let w' := {| self := self w; engine := r.2 |} in
  let f' := set_retValue r.1.1 (set_results (collect r.1.2 (results f)) f) in
  match pnUpdatedRows f with
  | None => Some (f', w', [EvLockShared; EvExec h sql r.1.1 r.1.2; EvUnlockShared])
  | Some _ =>
      if decide (r.1.1 = 0%Z) then
        let n := sqlite3_a3d_changes eng h r.2 in
        Some (set_pnUpdatedRows (Some n) f', w',
              [EvLock; EvExec h sql r.1.1 r.1.2; EvChanges h n; EvUnlock])
      else
        Some (set_pnUpdatedRows (Some 0%Z) f', w',
              [EvLock; EvExec h sql r.1.1 r.1.2; EvUnlock])
  end.
Proof.
  unfold submission, acquire_guard, submit, release_guard, bind, ret, emit, exec, changes.
  destruct f as [rv res [v|] tried dn k]; simpl; [|done].
  destruct (decide _) as [Hrc|Hrc]; simpl; done.
Qed.

Lemma submission_inv sql f w f1 w1 t1 :
  submission eng sql f w = Some (f1, w1, t1) ->
  let r := sqlite3_a3d_exec eng (m_database (self w)) sql (engine w) in
  retValue f1 = r.1.1 /\ results f1 = collect r.1.2 (results f) /\
  alreadyTriedReconnecting f1 = alreadyTriedReconnecting f /\
  done f1 = done f /\ i f1 = i f /\
  (pnUpdatedRows f = None -> pnUpdatedRows f1 = None) /\
  self w1 = self w /\ engine w1 = r.2 /\
  delivered t1 = r.1.2 /\ submissions t1 = 1 /\ reconnects t1 = 0 /\
  backoffs t1 = 0 /\ count_if is_close t1 = 0.
Proof.
  rewrite submission_eq. simpl.
  destruct (pnUpdatedRows f) as [v|] eqn:Hp; [destruct (decide _)|];
    intros [= <- <- <-]; simpl; rewrite ?app_nil_r; by repeat split.
Qed.

Lemma submission_total sql f w : is_Some (submission eng sql f w).
Proof.
  rewrite submission_eq. simpl.
  destruct (pnUpdatedRows f); [destruct (decide _)|]; done.
Qed.

(** [Reconnect], spelled out: close, open, and nothing else. *)
Lemma Reconnect_eq w :
  Reconnect eng w =
  let h := m_database (self w) in
  let path := m_databasePath (self w) in
  let r := sqlite3_a3d_open_v2 eng path OPEN_FLAGS (sqlite3_a3d_close_v2 eng h (engine w)) in
  Some (bool_decide (r.1.1 = SQLITE_OK),
        {| self := set_database r.1.2 (self w); engine := r.2 |},
        [EvLock; EvClose h; EvOpen path OPEN_FLAGS r.1.1 r.1.2; EvUnlock]).
Proof.
  unfold Reconnect, bind, emit, close_database, open_database, ret; simpl.
  destruct (decide _) as [Hne|Heq]; simpl.
  - by rewrite bool_decide_eq_false_2.
  - apply dec_stable in Heq. by rewrite bool_decide_eq_true_2.
Qed.

Ltac reconnect_branch pre :=
  unfold bind, ret; rewrite Reconnect_eq; simpl; intros [= <- <- <-]; simpl;
  repeat split; try done; try lia; right; right; repeat split; try done; try lia;
  try match goal with H : retValue _ = SQLITE_BUSY |- _ ≠ _ => by rewrite H end;
  eexists _, _, _, pre; rewrite ?Reconnect_eq; simpl; repeat split; done.

(** The three ways the [switch] can go. *)
Lemma interpret_inv retry f w f' w' tr :
  interpret eng retry f w = Some (f', w', tr) ->
  let t := m_timeoutMs (self w) in
  (retValue f' = retValue f /\ results f' = results f /\
   pnUpdatedRows f' = pnUpdatedRows f /\ delivered tr = [] /\ submissions tr = 0 /\
   m_isOpened (self w') = m_isOpened (self w) /\
   m_timeoutMs (self w') = t /\
   m_databasePath (self w') = m_databasePath (self w) /\
   (i f <= i f' <= i f + 1)%Z) /\
  ((* local backoff *)
   (retValue f = SQLITE_BUSY /\ (t = 0 \/ retry = true /\ i f < 10)%Z /\
    done f' = done f /\ alreadyTriedReconnecting f' = alreadyTriedReconnecting f /\
    i f' = (if decide (t = 0%Z) then i f else i f + 1)%Z /\
    w' = w /\ tr = [EvSleep 15])
   \/
   (* give up, or success *)
   ((retValue f = SQLITE_BUSY -> t ≠ 0%Z /\ (retry = true -> 10 <= i f)%Z) /\
    (retValue f = 0%Z \/ alreadyTriedReconnecting f = true) /\
    done f' = true /\ alreadyTriedReconnecting f' = alreadyTriedReconnecting f /\
    w' = w /\ reconnects tr = 0 /\ backoffs tr = 0 /\ count_if is_close tr = 0)
   \/
   (* one reconnect *)
   ((retValue f = SQLITE_BUSY -> t ≠ 0%Z /\ (retry = true -> 10 <= i f)%Z) /\
    retValue f ≠ 0%Z /\ alreadyTriedReconnecting f = false /\
    alreadyTriedReconnecting f' = true /\
    reconnects tr = 1 /\ backoffs tr = 0 /\ count_if is_close tr = 1 /\
    exists ok w0 t0 pre,
      Reconnect eng w = Some (ok, w0, t0) /\ w' = w0 /\ tr = pre ++ t0 /\
      done f' = negb ok)).
Proof.
  unfold interpret, reconnect_once, busy_retry.
  destruct (decide (retValue f = SQLITE_BUSY)) as [Hb|Hb].
  - unfold bind at 1. unfold member at 1.
    destruct (decide (m_timeoutMs (self w) = 0%Z)) as [Ht|Ht]; simpl.
    + intros [= <- <- <-]. simpl. repeat split; try done; try lia. left.
      repeat split; try done. by left.
    + destruct retry; [destruct (bool_decide (i f < 10)%Z) eqn:Hi|]; simpl.
      * apply bool_decide_eq_true in Hi. intros [= <- <- <-]; simpl.
        repeat split; try done; try lia. left. repeat split; try done. by right.
      * apply bool_decide_eq_false in Hi.
        destruct (alreadyTriedReconnecting f) eqn:Ha; simpl.
        -- intros [= <- <- <-]; simpl. repeat split; try done; try lia. right; left.
           repeat split; try done; [lia | by right].
        -- reconnect_branch (@nil Event).
      * destruct (alreadyTriedReconnecting f) eqn:Ha; simpl.
        -- intros [= <- <- <-]; simpl. repeat split; try done; try lia. right; left.
           repeat split; try done; by right.
        -- reconnect_branch (@nil Event).
  - destruct (decide (retValue f = 0%Z)) as [H0|H0].
    + intros [= <- <- <-]; simpl. repeat split; try done; try lia. right; left.
      repeat split; try done. by left.
    + destruct (decide (retValue f = SQLITE_IOERR)) as [Hio|Hio].
      * destruct (alreadyTriedReconnecting f) eqn:Ha; simpl.
        -- intros [= <- <- <-]; simpl. repeat split; try done; try lia. right; left.
           repeat split; try done; by right.
        -- reconnect_branch (@nil Event).
      * unfold bind at 1. unfold errmsg at 1. unfold bind at 1. unfold emit at 1.
        destruct (alreadyTriedReconnecting f) eqn:Ha; simpl.
        -- intros [= <- <- <-]; simpl. repeat split; try done; try lia. right; left.
           repeat split; try done; by right.
        -- reconnect_branch
             [EvErrmsg (m_database (self w))
                (sqlite3_a3d_errmsg eng (m_database (self w)) (engine w));
              EvCout ("WrapperExecError: " ++
                      sqlite3_a3d_errmsg eng (m_database (self w)) (engine w))].
Qed.

Lemma Reconnect_total w : is_Some (Reconnect eng w).
Proof. rewrite Reconnect_eq. done. Qed.

Lemma reconnect_once_total f w : is_Some (reconnect_once eng f w).
Proof.
  unfold reconnect_once. apply bind_total; [apply Reconnect_total|done].
Qed.

Lemma interpret_total retry f w : is_Some (interpret eng retry f w).
Proof.
  unfold interpret, busy_retry.
  destruct (decide (retValue f = SQLITE_BUSY)).
  - apply bind_total; [done|]. intros t w1.
    destruct (decide (t = 0%Z)); [done|].
    destruct retry; [destruct (bool_decide _)|]; simpl; try done;
      (destruct (alreadyTriedReconnecting f); [done|apply reconnect_once_total]).
  - destruct (decide _); [done|].
    destruct (decide _).
    + destruct (alreadyTriedReconnecting f); [done|apply reconnect_once_total].
    + apply bind_total; [done|]. intros msg w1.
      apply bind_total; [done|]. intros _ w2.
      destruct (alreadyTriedReconnecting f); [done|apply reconnect_once_total].
Qed.

Lemma body_inv sql retry f w f' w' tr :
  ExecStatement_body eng sql retry f w = Some (f', w', tr) ->
  exists f1 w1 t1 t2,
    submission eng sql f w = Some (f1, w1, t1) /\
    interpret eng retry f1 w1 = Some (f', w', t2) /\ tr = t1 ++ t2.
Proof. apply bind_Some. Qed.

Lemma body_total sql retry f w : is_Some (ExecStatement_body eng sql retry f w).
Proof.
  unfold ExecStatement_body.
  destruct (submission_total sql f w) as [[[f1 w1] t1] Hs].
  rewrite (bind_Some_l _ _ _ _ _ _ Hs).
  destruct (interpret_total retry f1 w1) as [[[f2 w2] t2] Hi]. rewrite Hi. done.
Qed.

(** The container after an iteration is the container before it with the
    rows of this submission folded in: nothing is cleared. *)
Lemma body_results sql retry f w f' w' tr :
  ExecStatement_body eng sql retry f w = Some (f', w', tr) ->
  results f' = collect (delivered tr) (results f).
Proof.
  intros (f1 & w1 & t1 & t2 & Hs & Hi & ->)%body_inv.
  apply submission_inv in Hs as (_ & Hres & _ & _ & _ & _ & _ & _ & Hd & _).
  apply interpret_inv in Hi as ((_ & Hres' & _ & Hd' & _) & _).
  rewrite delivered_app, Hd, Hd', app_nil_r. congruence.
Qed.

(** The configuration of the object is not touched by an iteration; only
    the handle may be replaced. *)
Lemma body_config sql retry f w f' w' tr :
  ExecStatement_body eng sql retry f w = Some (f', w', tr) ->
  m_isOpened (self w') = m_isOpened (self w) /\
  m_timeoutMs (self w') = m_timeoutMs (self w) /\
  m_databasePath (self w') = m_databasePath (self w).
Proof.
  intros (f1 & w1 & t1 & t2 & Hs & Hi & ->)%body_inv.
  apply submission_inv in Hs as (_ & _ & _ & _ & _ & _ & Hself & _).
  apply interpret_inv in Hi as ((_ & _ & _ & _ & _ & Ho & Ht & Hp & _) & _).
  rewrite Hself in *. done.
Qed.

(** An iteration reconnects at most once, and only if no earlier iteration
    of the call did. *)
Lemma body_reconnects sql retry f w f' w' tr :
  ExecStatement_body eng sql retry f w = Some (f', w', tr) ->
  reconnects tr + (if alreadyTriedReconnecting f then 1 else 0) =
  (if alreadyTriedReconnecting f' then 1 else 0).
Proof.
  intros (f1 & w1 & t1 & t2 & Hs & Hi & ->)%body_inv.
  apply submission_inv in Hs as (_ & _ & Ha & _ & _ & _ & _ & _ & _ & _ & Hr & _).
  apply interpret_inv in Hi as (_ & Hcase).
  rewrite reconnects_app, Hr, <- Ha.
  destruct Hcase as [(_ & _ & _ & -> & _ & _ & ->)|
                     [(_ & _ & _ & -> & _ & -> & _)|(_ & _ & -> & -> & -> & _)]]; done.
Qed.

Lemma loop_unfold fuel sql retry f :
  ExecStatement_loop eng (S fuel) sql retry f =
  if done f then ret f
  else let* f := ExecStatement_body eng sql retry f in
       ExecStatement_loop eng fuel sql retry f.
Proof. done. Qed.

Lemma loop_done fuel sql retry f w :
  done f = true -> ExecStatement_loop eng fuel sql retry f w = Some (f, w, []).
Proof. intros Hd. destruct fuel; simpl; rewrite Hd; done. Qed.

Lemma loop_step fuel sql retry f w f1 w1 t1 :
  done f = false ->
  ExecStatement_body eng sql retry f w = Some (f1, w1, t1) ->
  ExecStatement_loop eng (S fuel) sql retry f w =
  match ExecStatement_loop eng fuel sql retry f1 w1 with
  | None => None
  | Some (f2, w2, t2) => Some (f2, w2, t1 ++ t2)
  end.
Proof. intros Hd Hb. rewrite loop_unfold, Hd. apply (bind_Some_l _ _ _ _ _ _ Hb). Qed.

(** Induction principle for a loop that returns. *)
Lemma loop_ind (P : Frame -> World E -> Frame -> World E -> list Event -> Prop) sql retry :
  (forall f w, done f = true -> P f w f w []) ->
  (forall f w f1 w1 t1 f2 w2 t2,
     done f = false ->
     ExecStatement_body eng sql retry f w = Some (f1, w1, t1) ->
     P f1 w1 f2 w2 t2 -> P f w f2 w2 (t1 ++ t2)) ->
  forall fuel f w f' w' tr,
    ExecStatement_loop eng fuel sql retry f w = Some (f', w', tr) -> P f w f' w' tr.
Proof.
  intros Hdone Hstep. induction fuel as [|fuel IH]; intros f w f' w' tr.
  - simpl. destruct (done f) eqn:Hd; [|done]. intros [= <- <- <-]. by apply Hdone.
  - destruct (done f) eqn:Hd.
    + rewrite loop_done by done. intros [= <- <- <-]. by apply Hdone.
    + destruct (body_total sql retry f w) as [[[f1 w1] t1] Hb].
      rewrite (loop_step _ _ _ _ _ _ _ _ Hd Hb).
      destruct (ExecStatement_loop eng fuel sql retry f1 w1) as [[[f2 w2] t2]|] eqn:Hl;
        [|done].
      intros [= <- <- <-]. eapply Hstep; eauto.
Qed.

Lemma loop_results fuel sql retry f w f' w' tr :
  ExecStatement_loop eng fuel sql retry f w = Some (f', w', tr) ->
  results f' = collect (delivered tr) (results f).
Proof.
  revert fuel f w f' w' tr. apply loop_ind.
  - done.
  - intros f w f1 w1 t1 f2 w2 t2 _ Hb IH.
    rewrite delivered_app, collect_app, <- (body_results _ _ _ _ _ _ _ Hb). done.
Qed.

Lemma loop_config fuel sql retry f w f' w' tr :
  ExecStatement_loop eng fuel sql retry f w = Some (f', w', tr) ->
  m_isOpened (self w') = m_isOpened (self w) /\
  m_timeoutMs (self w') = m_timeoutMs (self w) /\
  m_databasePath (self w') = m_databasePath (self w).
Proof.
  revert fuel f w f' w' tr. apply loop_ind.
  - done.
  - intros f w f1 w1 t1 f2 w2 t2 _ Hb (-> & -> & ->). by apply body_config in Hb.
Qed.

Lemma loop_reconnects fuel sql retry f w f' w' tr :
  ExecStatement_loop eng fuel sql retry f w = Some (f', w', tr) ->
  reconnects tr + (if alreadyTriedReconnecting f then 1 else 0) =
  (if alreadyTriedReconnecting f' then 1 else 0).
Proof.
  revert fuel f w f' w' tr. apply loop_ind.
  - done.
  - intros f w f1 w1 t1 f2 w2 t2 _ Hb IH. apply body_reconnects in Hb.
    rewrite reconnects_app. lia.
Qed.

(** More fuel does not change the outcome of a call that returns. *)
Lemma loop_fuel_mono fuel fuel' sql retry f w r :
  fuel <= fuel' ->
  ExecStatement_loop eng fuel sql retry f w = Some r ->
  ExecStatement_loop eng fuel' sql retry f w = Some r.
Proof.
  revert fuel' f w r. induction fuel as [|fuel IH]; intros fuel' f w r Hle.
  - simpl. destruct (done f) eqn:Hd; [|done]. intros <-. by apply loop_done.
  - destruct fuel' as [|fuel']; [lia|].
    destruct (done f) eqn:Hd.
    + rewrite !loop_done by done. done.
    + destruct (body_total sql retry f w) as [[[f1 w1] t1] Hb].
      rewrite !(loop_step _ _ _ _ _ _ _ _ Hd Hb).
      destruct (ExecStatement_loop eng fuel sql retry f1 w1) as [r1|] eqn:Hl; [|done].
      rewrite (IH fuel' f1 w1 r1) by (done || lia). done.
Qed.

(** *** Termination under a non-zero budget *)

Lemma body_progress sql retry f w f' w' tr :
  m_timeoutMs (self w) ≠ 0%Z ->
  ExecStatement_body eng sql retry f w = Some (f', w', tr) ->
  done f' = true \/ budget retry f' < budget retry f.
Proof.
  intros Ht (f1 & w1 & t1 & t2 & Hs & Hi & ->)%body_inv.
  apply submission_inv in Hs as (_ & _ & Ha & _ & Hi1 & _ & Hself & _).
  apply interpret_inv in Hi as ((_ & _ & _ & _ & _ & _ & _ & _ & Hmono) & Hcase).
  rewrite Hself in Hcase. unfold budget. rewrite <- Ha, <- Hi1.
  destruct Hcase as [(_ & Hc & _ & -> & Hi' & _)|
                     [(_ & _ & -> & _)|(_ & _ & -> & -> & _)]].
  - right. destruct Hc as [?|[-> Hlt]]; [done|].
    rewrite decide_False in Hi' by done. rewrite Hi'. lia.
  - by left.
  - right. destruct retry; lia.
Qed.

Lemma loop_terminates fuel sql retry f w :
  m_timeoutMs (self w) ≠ 0%Z -> budget retry f < fuel ->
  is_Some (ExecStatement_loop eng fuel sql retry f w).
Proof.
  revert f w. induction fuel as [|fuel IH]; intros f w Ht Hb; [lia|].
  destruct (done f) eqn:Hd; [by rewrite loop_done|].
  destruct (body_total sql retry f w) as [[[f1 w1] t1] Hbody].
  rewrite (loop_step _ _ _ _ _ _ _ _ Hd Hbody).
  destruct (body_progress _ _ _ _ _ _ _ Ht Hbody) as [Hd1|Hlt].
  - by rewrite loop_done.
  - apply body_config in Hbody as (_ & Ht1 & _).
    destruct (IH f1 w1) as [[[f2 w2] t2] ->]; [congruence|lia|done].
Qed.

(** *** The public entry point *)

Lemma ExecStatement_not_ready fuel sql rv res retry pn w :
  m_isOpened (self w) = false ->
  ExecStatement eng fuel sql rv res retry pn w =
  Some ({| returned := false; out_retValue := rv; out_results := res;
           out_pnUpdatedRows := pn |}, w, []).
Proof. intros Hr. unfold ExecStatement, IsReady, bind, member. rewrite Hr. done. Qed.

Lemma ExecStatement_ready fuel sql rv res retry pn w :
  m_isOpened (self w) = true ->
  ExecStatement eng fuel sql rv res retry pn w =
  match ExecStatement_loop eng fuel sql retry (entry_frame rv res pn) w with
  | None => None
  | Some (f, w', tr) =>
      Some ({| returned := bool_decide (retValue f = 0%Z); out_retValue := retValue f;
               out_results := results f; out_pnUpdatedRows := pnUpdatedRows f |}, w', tr)
  end.
Proof.
  intros Hr. unfold ExecStatement, IsReady, bind, member, ret. rewrite Hr. simpl.
  destruct (ExecStatement_loop _ _ _ _ _ _) as [[[f w'] tr]|]; [|done].
  by rewrite app_nil_r.
Qed.

Lemma ExecStatement_inv fuel sql rv res retry pn w o w' tr :
  ExecStatement eng fuel sql rv res retry pn w = Some (o, w', tr) ->
  (m_isOpened (self w) = false /\
   o = {| returned := false; out_retValue := rv; out_results := res;
          out_pnUpdatedRows := pn |} /\
   w' = w /\ tr = []) \/
  (m_isOpened (self w) = true /\
   exists f, ExecStatement_loop eng fuel sql retry (entry_frame rv res pn) w
             = Some (f, w', tr) /\
             returned o = bool_decide (retValue f = 0%Z) /\
             out_retValue o = retValue f /\ out_results o = results f /\
             out_pnUpdatedRows o = pnUpdatedRows f).
Proof.
  destruct (m_isOpened (self w)) eqn:Hr.
  - rewrite ExecStatement_ready by done.
    destruct (ExecStatement_loop _ _ _ _ _ _) as [[[f w1] t1]|] eqn:Hl; [|done].
    intros [= <- <- <-]. right. split; [done|]. by exists f.
  - rewrite ExecStatement_not_ready by done. intros [= <- <- <-]. by left.
Qed.

(** Whatever the engine does, a call reconnects at most once. *)
Lemma ExecStatement_reconnects_le_1 fuel sql rv res retry pn w o w' tr :
  ExecStatement eng fuel sql rv res retry pn w = Some (o, w', tr) ->
  reconnects tr <= 1.
Proof.
  intros [(_ & _ & _ & ->)|(_ & f & Hl & _)]%ExecStatement_inv; [cbv; lia|].
  apply loop_reconnects in Hl. simpl in Hl.
  destruct (alreadyTriedReconnecting f); lia.
Qed.

(** With a non-zero budget a call on a ready connection returns within
    twelve iterations, whatever the engine answers. *)
Lemma ExecStatement_terminates fuel sql rv res retry pn w :
  m_timeoutMs (self w) ≠ 0%Z -> 12 <= fuel ->
  is_Some (ExecStatement eng fuel sql rv res retry pn w).
Proof.
  intros Ht Hfuel. destruct (m_isOpened (self w)) eqn:Hr.
  - rewrite ExecStatement_ready by done.
    destruct (loop_terminates fuel sql retry (entry_frame rv res pn) w Ht)
      as [[[f w1] t1] ->]; [|done].
    unfold budget; simpl. destruct retry; lia.
  - by rewrite ExecStatement_not_ready.
Qed.

(** The container handed back is the caller's container with every row
    delivered during the call folded in, submission after submission. *)
Lemma ExecStatement_results fuel sql rv res retry pn w o w' tr :
  ExecStatement eng fuel sql rv res retry pn w = Some (o, w', tr) ->
  out_results o = collect (delivered tr) res.
Proof.
  intros [(_ & -> & _ & ->)|(_ & f & Hl & _ & _ & -> & _)]%ExecStatement_inv; [done|].
  by apply loop_results in Hl.
Qed.

(** *** An engine that is always busy *)

Lemma always_busy_streak n h sql e : always_busy eng -> busy_streak eng n h sql e.
Proof. intros Hb. revert e. induction n as [|n IH]; intros e; simpl; auto. Qed.

Lemma busy_body sql retry f w f' w' tr :
  always_busy eng ->
  ExecStatement_body eng sql retry f w = Some (f', w', tr) ->
  done f = false ->
  retValue f' = SQLITE_BUSY /\ (done f' = true -> alreadyTriedReconnecting f' = true).
Proof.
  intros Hbusy (f1 & w1 & t1 & t2 & Hs & Hi & ->)%body_inv Hd.
  apply submission_inv in Hs as (Hrv & _ & _ & Hd1 & _).
  rewrite Hbusy in Hrv.
  apply interpret_inv in Hi as ((Hrv' & _) & Hcase).
  split; [congruence|].
  destruct Hcase as [(_ & _ & Hd' & _)|[(_ & [H0|Ha] & _ & Ha' & _)|(_ & _ & _ & Ha' & _)]].
  - congruence.
  - rewrite Hrv in H0. done.
  - congruence.
  - done.
Qed.

Lemma busy_loop fuel sql retry f w f' w' tr :
  always_busy eng ->
  ExecStatement_loop eng fuel sql retry f w = Some (f', w', tr) ->
  done f = false ->
  retValue f' = SQLITE_BUSY /\ alreadyTriedReconnecting f' = true.
Proof.
  intros Hbusy Hl Hd.
  cut ((done f = true -> retValue f = SQLITE_BUSY /\ alreadyTriedReconnecting f = true) ->
       retValue f' = SQLITE_BUSY /\ alreadyTriedReconnecting f' = true).
  { intros H. apply H. congruence. }
  clear Hd. revert fuel f w f' w' tr Hl.
  apply (loop_ind (fun f w f' w' tr =>
    (done f = true -> retValue f = SQLITE_BUSY /\ alreadyTriedReconnecting f = true) ->
    retValue f' = SQLITE_BUSY /\ alreadyTriedReconnecting f' = true)).
  - auto.
  - intros f w f1 w1 t1 f2 w2 t2 Hd Hb IH _. apply IH.
    destruct (busy_body _ _ _ _ _ _ _ Hbusy Hb Hd). auto.
Qed.

(** With [retry] set and a non-zero budget, the loop backs off until the
    counter reaches 10 and not once more. *)
Lemma busy_backoffs fuel sql f w f' w' tr :
  always_busy eng ->
  ExecStatement_loop eng fuel sql true f w = Some (f', w', tr) ->
  m_timeoutMs (self w) ≠ 0%Z ->
  backoffs tr = if done f then 0 else Z.to_nat (10 - i f).
Proof.
  intros Hbusy. revert fuel f w f' w' tr.
  apply (loop_ind (fun f w f' w' tr =>
    m_timeoutMs (self w) ≠ 0%Z ->
    backoffs tr = if done f then 0 else Z.to_nat (10 - i f))).
  - intros f w ->. done.
  - intros f w f1 w1 t1 f2 w2 t2 Hd Hb IH Ht. rewrite Hd.
    pose proof (body_config _ _ _ _ _ _ _ Hb) as (_ & Ht1 & _).
    unfold backoffs in *. rewrite count_if_app, IH by congruence. clear IH.
    apply body_inv in Hb as (f0 & w0 & t0 & t0' & Hs & Hi & ->).
    apply submission_inv in Hs as (Hrv & _ & _ & Hd0 & Hi0 & _ & Hself & _ & _ & _ & _ & Hsl & _).
    rewrite Hbusy in Hrv.
    apply interpret_inv in Hi as ((_ & _ & _ & _ & _ & _ & _ & _ & Hmono) & Hcase).
    rewrite Hself in Hcase. unfold backoffs in *. rewrite count_if_app, Hsl.
    destruct Hcase as [(_ & Hc & Hd' & _ & Hi' & _ & ->)|
                       [(Hc & _ & -> & _ & _ & _ & -> & _)|(Hc & _ & _ & _ & _ & -> & _)]].
    + destruct Hc as [?|[_ Hlt]]; [done|]. rewrite decide_False in Hi' by done.
      rewrite Hd', Hd0, Hd, Hi'. simpl. lia.
    + destruct (Hc Hrv) as [_ Hge]. specialize (Hge eq_refl). lia.
    + destruct (Hc Hrv) as [_ Hge]. specialize (Hge eq_refl).
      destruct (done f1); lia.
Qed.

(** *** Backing off without a deadline *)

(** With a zero budget, any iteration whose submission is answered BUSY
    sleeps 15 ms and goes round again: it neither reconnects nor ends the
    loop, and leaves the counter and the reconnect flag alone. *)
Lemma busy_iteration_backs_off sql retry f w :
  m_timeoutMs (self w) = 0%Z ->
  (sqlite3_a3d_exec eng (m_database (self w)) sql (engine w)).1.1 = SQLITE_BUSY ->
  exists f' w' tr,
    ExecStatement_body eng sql retry f w = Some (f', w', tr) /\
    submissions tr = 1 /\ backoffs tr = 1 /\ reconnects tr = 0 /\
    count_if is_close tr = 0 /\
    done f' = done f /\ i f' = i f /\
    alreadyTriedReconnecting f' = alreadyTriedReconnecting f /\
    self w' = self w.
Proof.
  intros Ht Hrc.
  destruct (body_total sql retry f w) as [[[f1 w1] t1] Hb].
  exists f1, w1, t1. split; [done|].
  apply body_inv in Hb as (f0 & w0 & t0 & t0' & Hs & Hi & ->).
  apply submission_inv in Hs
    as (Hrv & _ & Ha0 & Hd0 & Hi0 & _ & Hself & _ & _ & Hsub & Hrec & Hsl & Hcl).
  rewrite Hrc in Hrv.
  apply interpret_inv in Hi as (_ & Hcase). rewrite Hself in Hcase.
  destruct Hcase as [(_ & _ & Hd' & Ha' & Hi' & -> & ->)|[(Hc & _)|(Hc & _)]];
    [|by destruct (Hc Hrv)..].
  rewrite decide_True in Hi' by done.
  unfold submissions, backoffs, reconnects in *.
  rewrite !count_if_app, Hsub, Hrec, Hsl, Hcl.
  repeat split; try congruence; done.
Qed.

(** With a zero budget, [n] BUSY answers in a row are [n] iterations that
    sleep 15 ms and change nothing but the engine: the loop is then where it
    started. *)
Lemma backoff_rounds n sql retry f w :
  m_timeoutMs (self w) = 0%Z -> done f = false ->
  busy_streak eng n (m_database (self w)) sql (engine w) ->
  exists f_n w_n tr_n,
    (forall fuel,
       ExecStatement_loop eng (n + fuel) sql retry f w =
       match ExecStatement_loop eng fuel sql retry f_n w_n with
       | None => None
       | Some (f2, w2, t2) => Some (f2, w2, tr_n ++ t2)
       end) /\
    self w_n = self w /\ done f_n = false /\ i f_n = i f /\
    alreadyTriedReconnecting f_n = alreadyTriedReconnecting f /\
    submissions tr_n = n /\ backoffs tr_n = n /\
    reconnects tr_n = 0 /\ count_if is_close tr_n = 0.
Proof.
  intros Ht. revert f w Ht. induction n as [|n IH]; intros f w Ht Hd Hstreak.
  - exists f, w, []. split; [|done]. intros fuel. simpl.
    by destruct (ExecStatement_loop _ _ _ _ _ _) as [[[f2 w2] t2]|].
  - destruct Hstreak as [Hrc Hstreak].
    destruct (body_total sql retry f w) as [[[f1 w1] t1] Hb].
    pose proof Hb as (f0 & w0 & t0 & t0' & Hs & Hi & ->)%body_inv.
    apply submission_inv in Hs
      as (Hrv & _ & Ha0 & Hd0 & Hi0 & _ & Hself & Heng & _ & Hsub & Hrec & Hsl & Hcl).
    rewrite Hrc in Hrv.
    apply interpret_inv in Hi as ((_ & _ & _ & _ & Hsub' & _) & Hcase).
    rewrite Hself in Hcase.
    destruct Hcase as [(_ & _ & Hd' & Ha' & Hi' & -> & ->)|
                       [(Hc & _)|(Hc & _)]];
      [|by destruct (Hc Hrv)..].
    rewrite decide_True in Hi' by done.
    destruct (IH f1 w0)
      as (f_n & w_n & tr_n & Hrun & Hself' & Hdn & Hin & Han & Hs_n & Hb_n & Hr_n & Hc_n).
    { by rewrite Hself. } { congruence. } { by rewrite Hself, Heng. }
    exists f_n, w_n, ((t0 ++ [EvSleep 15]) ++ tr_n). split.
    + intros fuel. change (S n + fuel) with (S (n + fuel)).
      rewrite (loop_step _ _ _ _ _ _ _ _ Hd Hb), Hrun.
      destruct (ExecStatement_loop _ _ _ _ _ _) as [[[f2 w2] t2]|]; [|done].
      by rewrite (assoc_L (++)).
    + unfold submissions, backoffs, reconnects in *.
      rewrite !count_if_app, Hs_n, Hb_n, Hr_n, Hc_n, Hsub, Hsl, Hrec, Hcl.
      repeat split; try congruence; simpl; lia.
Qed.

End Execution.

(** ** One thread on its own is the sequential model *)

Section Refinement.

Context {E : Type} (eng : Engine E).

Lemma interpret_switch retry f w :
  interpret eng retry f w =
  match switch eng retry f w with
  | Some ((f1, true), w1, t1) =>
      match reconnect_once eng f1 w1 with
      | Some (f2, w2, t2) => Some (f2, w2, t1 ++ t2)
      | None => None
      end
  | Some ((f1, false), w1, t1) => Some (f1, w1, t1)
  | None => None
  end.
Proof.
  unfold interpret, switch, escalate, busy_retry.
  destruct (decide (retValue f = SQLITE_BUSY)).
  - unfold bind at 1 3. unfold member. simpl.
    destruct (decide (m_timeoutMs (self w) = 0%Z)); [done|].
    destruct retry; [destruct (bool_decide (i f < 10)%Z)|]; simpl; try done;
      (destruct (alreadyTriedReconnecting f); simpl; [done|];
       by destruct (reconnect_once eng _ w) as [[[f2 w2] t2]|]).
  - destruct (decide (retValue f = 0%Z)); [done|].
    destruct (decide (retValue f = SQLITE_IOERR)).
    + destruct (alreadyTriedReconnecting f); simpl; [done|].
      by destruct (reconnect_once eng _ w) as [[[f2 w2] t2]|].
    + unfold bind at 1 3. unfold errmsg. simpl.
      unfold bind at 1 2. unfold emit. simpl.
      destruct (alreadyTriedReconnecting f); simpl; [done|].
      by destruct (reconnect_once eng _ w) as [[[f2 w2] t2]|].
Qed.

Ltac run_step :=
  unfold thread_step, at_pc, submit, changes, close_database, open_database,
    bind, exec, ret; simpl.

Lemma steps_one th m w th1 m1 w1 t1 :
  thread_step eng th m w = Some (th1, m1, w1, t1) ->
  thread_steps eng th m w t1 th1 m1 w1.
Proof.
  intros Hs. rewrite <- (app_nil_r t1). eapply steps_cons; [done|]. constructor.
Qed.

Lemma steps_trans th m w t1 th1 m1 w1 t2 th2 m2 w2 :
  thread_steps eng th m w t1 th1 m1 w1 ->
  thread_steps eng th1 m1 w1 t2 th2 m2 w2 ->
  thread_steps eng th m w (t1 ++ t2) th2 m2 w2.
Proof.
  induction 1 as [|th m w ta tha ma wa tb thb mb wb Hstep Hrest IH]; intros Hnext.
  - done.
  - rewrite <- (assoc_L (++)). eapply steps_cons; [done|]. by apply IH.
Qed.

(** Lines 136-162 taken step by step are the [submission] of the
    sequential model, and leave the guard as they found it. *)
Lemma window_steps sql r f w f1 w1 t1 :
  submission eng sql f w = Some (f1, w1, t1) ->
  thread_steps eng {| pc := AtAcquire; statementText := sql; retry := r; frame := f |}
    unlocked w t1
    {| pc := AtSwitch; statementText := sql; retry := r; frame := f1 |} unlocked w1.
Proof.
  rewrite submission_eq. destruct f as [rv res [v|] tried dn k]; simpl.
  - destruct (decide _) as [Hrc|Hrc]; intros [= <- <- <-].
    + eapply (steps_cons _ _ _ _ [EvLock]); [reflexivity|].
      eapply (steps_cons _ _ _ _ [_]).
      { run_step. rewrite decide_True by done. reflexivity. }
      eapply (steps_cons _ _ _ _ [_]); [reflexivity|].
      apply steps_one. reflexivity.
    + eapply (steps_cons _ _ _ _ [EvLock]); [reflexivity|].
      eapply (steps_cons _ _ _ _ [_]).
      { run_step. rewrite decide_False by done. reflexivity. }
      apply steps_one. reflexivity.
  - intros [= <- <- <-].
    eapply (steps_cons _ _ _ _ [EvLockShared]); [reflexivity|].
    eapply (steps_cons _ _ _ _ [_]); [reflexivity|].
    apply steps_one. reflexivity.
Qed.

(** Lines 164-206, with the [Reconnect] they may call, taken step by step
    are the [interpret] of the sequential model. *)
Lemma switch_steps sql r f w f2 w2 t2 :
  interpret eng r f w = Some (f2, w2, t2) ->
  thread_steps eng {| pc := AtSwitch; statementText := sql; retry := r; frame := f |}
    unlocked w t2
    {| pc := loop_head f2; statementText := sql; retry := r; frame := f2 |} unlocked w2.
Proof.
  rewrite interpret_switch.
  destruct (switch eng r f w) as [[[[f1 []] w1] t1]|] eqn:Hsw; [| |done].
  - unfold reconnect_once, bind, ret. rewrite Reconnect_eq. simpl.
    intros [= <- <- <-].
    eapply steps_cons; [unfold thread_step; simpl; rewrite Hsw; reflexivity|].
    eapply (steps_cons _ _ _ _ [EvLock]); [reflexivity|].
    eapply (steps_cons _ _ _ _ [_]); [reflexivity|].
    eapply (steps_cons _ _ _ _ [_]); [reflexivity|].
    apply steps_one. reflexivity.
  - intros [= <- <- <-]. apply steps_one. unfold thread_step; simpl.
    rewrite Hsw. reflexivity.
Qed.

(** One iteration of the loop. *)
Lemma iteration_steps sql r f w f' w' tr :
  ExecStatement_body eng sql r f w = Some (f', w', tr) ->
  thread_steps eng {| pc := AtAcquire; statementText := sql; retry := r; frame := f |}
    unlocked w tr
    {| pc := loop_head f'; statementText := sql; retry := r; frame := f' |} unlocked w'.
Proof.
  intros (f1 & w1 & t1 & t2 & Hs & Hi & ->)%body_inv.
  eapply steps_trans; [by apply window_steps|by apply switch_steps].
Qed.

(** The loop. *)
Lemma loop_steps fuel sql r f w f' w' tr :
  ExecStatement_loop eng fuel sql r f w = Some (f', w', tr) ->
  thread_steps eng {| pc := loop_head f; statementText := sql; retry := r; frame := f |}
    unlocked w tr
    {| pc := Returned (bool_decide (retValue f' = 0%Z)); statementText := sql;
       retry := r; frame := f' |} unlocked w'.
Proof.
  revert fuel f w f' w' tr.
  apply (loop_ind eng (fun f w f' w' tr =>
    thread_steps eng {| pc := loop_head f; statementText := sql; retry := r; frame := f |}
      unlocked w tr
      {| pc := Returned (bool_decide (retValue f' = 0%Z)); statementText := sql;
         retry := r; frame := f' |} unlocked w')).
  - intros f w Hd. unfold loop_head. rewrite Hd. constructor.
  - intros f w f1 w1 t1 f2 w2 t2 Hd Hb IH.
    eapply steps_trans; [|exact IH].
    unfold loop_head at 1. rewrite Hd. by apply iteration_steps.
Qed.

(** X27: a whole call.  A thread scheduled alone goes from the call to
    the return with the outcome, the world and the trace of the sequential
    model, and finds and leaves the guard free. *)
Theorem solo_thread_refines fuel sql rv res r pn w o w' tr :
  ExecStatement eng fuel sql rv res r pn w = Some (o, w', tr) ->
  exists f,
    thread_steps eng (call sql rv res r pn) unlocked w tr
      {| pc := Returned (returned o); statementText := sql; retry := r; frame := f |}
      unlocked w' /\
    out_retValue o = retValue f /\ out_results o = results f /\
    out_pnUpdatedRows o = pnUpdatedRows f.
Proof.
  intros [(Hr & -> & -> & ->)|(Hr & f & Hl & Hret & Hrv & Hres & Hpn)]%ExecStatement_inv.
  - exists (entry_frame rv res pn). split; [|done].
    apply steps_one. unfold thread_step, call; simpl. rewrite Hr. reflexivity.
  - exists f. split; [|done].
    change tr with ([] ++ tr).
    eapply steps_cons; [unfold thread_step, call; simpl; rewrite Hr; reflexivity|].
    rewrite Hret. by apply loop_steps in Hl.
Qed.

End Refinement.

(** ** The guard *)

Section Guard.

Context {E : Type} (eng : Engine E).

Implicit Types (p : Thread -> bool) (ths : list Thread) (c : Config E).

Lemma tally_cons p th ths :
  tally p (th :: ths) = (if p th then 1 else 0) + tally p ths.
Proof. unfold tally. simpl. by destruct (p th). Qed.

Lemma tally_insert p ths t th th' :
  ths !! t = Some th ->
  tally p (<[t := th']> ths) + (if p th then 1 else 0) =
  tally p ths + (if p th' then 1 else 0).
Proof.
  revert t. induction ths as [|th0 ths IH]; intros [|t] Hl; simplify_eq/=.
  - rewrite !tally_cons. lia.
  - rewrite !tally_cons. specialize (IH t Hl). lia.
Qed.

Lemma tally_ge_1 p ths t th :
  ths !! t = Some th -> p th = true -> 1 <= tally p ths.
Proof.
  revert t. induction ths as [|th0 ths IH]; intros [|t] Hl Hp; simplify_eq/=;
    rewrite tally_cons.
  - rewrite Hp. lia.
  - specialize (IH t Hl Hp). lia.
Qed.

Lemma tally_ge_2 p ths a b tha thb :
  a ≠ b -> ths !! a = Some tha -> ths !! b = Some thb ->
  p tha = true -> p thb = true -> 2 <= tally p ths.
Proof.
  revert a b. induction ths as [|th0 ths IH]; intros [|a] [|b] Hne Ha Hb Hpa Hpb;
    simplify_eq/=; rewrite tally_cons.
  - rewrite Hpa. pose proof (tally_ge_1 p ths b thb Hb Hpb). lia.
  - rewrite Hpb. pose proof (tally_ge_1 p ths a tha Ha Hpa). lia.
  - assert (a ≠ b) by congruence. specialize (IH a b H Ha Hb Hpa Hpb). lia.
Qed.

Lemma tally_none p ths : Forall (fun th => p th = false) ths -> tally p ths = 0.
Proof.
  induction 1 as [|th ths Hp _ IH]; [done|]. rewrite tally_cons, Hp, IH. done.
Qed.

(** What one step of a thread does to the guard matches what it does to
    the thread's claim on it. *)
Ltac guard_fin :=
  intros; repeat split; intros; try done; try lia; try congruence; eauto.

Lemma thread_step_guard th m w th' m' w' tr :
  thread_step eng th m w = Some (th', m', w', tr) ->
  (holds_shared th = true -> 1 <= sharers m) ->
  (holds_exclusive th = true -> exclusive m = true) ->
  (exclusive m = true -> sharers m = 0) ->
  sharers m' + (if holds_shared th then 1 else 0) =
  sharers m + (if holds_shared th' then 1 else 0) /\
  (if exclusive m' then 1 else 0) + (if holds_exclusive th then 1 else 0) =
  (if exclusive m then 1 else 0) + (if holds_exclusive th' then 1 else 0) /\
  (exclusive m' = true -> sharers m' = 0).
Proof.
  destruct th as [p sql r f], m as [x s]. unfold thread_step, holds_shared, holds_exclusive.
  destruct p; simpl.
  - destruct (m_isOpened (self w)); intros [= <- <- <- <-]; simpl; guard_fin.
  - destruct (pnUpdatedRows f) as [v|] eqn:Hpn; unfold lock, lock_shared; simpl.
    + destruct x; simpl; [done|]. case_bool_decide; [|done]. subst s.
      intros [= <- <- <- <-]; simpl. guard_fin.
    + destruct x; simpl; [done|].
      intros [= <- <- <- <-]; simpl. rewrite Hpn. simpl. guard_fin.
  - unfold submit, bind, exec, ret; simpl.
    destruct (pnUpdatedRows f) as [v|] eqn:Hpn; [destruct (decide _)|];
      intros [= <- <- <- <-]; simpl; rewrite ?Hpn; simpl; guard_fin.
  - unfold changes. intros [= <- <- <- <-]; simpl. guard_fin.
  - destruct (pnUpdatedRows f) as [v|] eqn:Hpn; intros [= <- <- <- <-]; simpl;
      intros Hs Hx Hxs.
    + specialize (Hx eq_refl). subst x. simpl. guard_fin.
    + specialize (Hs eq_refl). destruct x; [specialize (Hxs eq_refl); lia|].
      simpl. guard_fin.
  - destruct (switch eng r f w) as [[[[f1 []] w1] t1]|]; [| |done];
      intros [= <- <- <- <-]; simpl; [guard_fin|].
    unfold loop_head. destruct (done f1); simpl; guard_fin.
  - unfold lock; simpl. destruct x; simpl; [done|]. case_bool_decide; [|done]. subst s.
    intros [= <- <- <- <-]; simpl. guard_fin.
  - unfold close_database. intros [= <- <- <- <-]; simpl. guard_fin.
  - unfold open_database. intros [= <- <- <- <-]; simpl. guard_fin.
  - intros [= <- <- <- <-]; simpl. intros _ Hx Hxs. specialize (Hx eq_refl). subst x.
    unfold loop_head; simpl. destruct (negb ok); simpl; guard_fin.
  - done.
Qed.

Lemma step_guard_invariant c mv c' :
  step eng c mv = Some c' ->
  guard_invariant (guard c) (threads c) -> guard_invariant (guard c') (threads c').
Proof.
  destruct mv as [t|ms]; simpl.
  - destruct (threads c !! t) as [th|] eqn:Hth; [|done].
    destruct (thread_step eng th (guard c) (shared c)) as [[[[th' m'] w'] tr]|] eqn:Hstep;
      [|done].
    intros [= <-]; simpl. intros (Hs & Hx & Hxs).
    destruct (thread_step_guard _ _ _ _ _ _ _ Hstep) as (Hs' & Hx' & Hxs'); [| |done|].
    + intros Hp. rewrite Hs. by eapply tally_ge_1.
    + intros Hp. pose proof (tally_ge_1 _ _ _ _ Hth Hp) as Hge.
      rewrite Hx in Hge. by destruct (exclusive (guard c)); [|lia].
    + pose proof (tally_insert holds_shared _ _ _ th' Hth).
      pose proof (tally_insert holds_exclusive _ _ _ th' Hth).
      repeat split; [lia| |done].
      destruct (exclusive m'), (exclusive (guard c)); lia.
  - intros [= <-]. done.
Qed.

Lemma run_guard_invariant sched c :
  guard_invariant (guard c) (threads c) ->
  guard_invariant (guard (run eng sched c)) (threads (run eng sched c)).
Proof.
  revert c. induction sched as [|mv sched IH]; intros c Hinv; [done|].
  simpl. apply IH. destruct (step eng c mv) as [c1|] eqn:Hstep; [|done].
  simpl. by eapply step_guard_invariant.
Qed.

Lemma boot_guard_invariant (w : World E) ths :
  Forall (fun th => pc th = AtEntry) ths ->
  guard_invariant (guard (boot w ths)) (threads (boot w ths)).
Proof.
  intros Hall. simpl. unfold guard_invariant.
  rewrite !tally_none; [done| |].
  - eapply Forall_impl; [done|]. intros th Hpc. unfold holds_exclusive. by rewrite Hpc.
  - eapply Forall_impl; [done|]. intros th Hpc. unfold holds_shared. by rewrite Hpc.
Qed.

Lemma in_counting_window_holds th :
  in_counting_window th = true -> holds_exclusive th = true.
Proof.
  unfold in_counting_window, in_window, holds_exclusive.
  destruct (pc th); simpl; try done; by intros ?%andb_prop.
Qed.

Lemma in_window_holds th :
  in_window th = true -> holds_exclusive th = true \/ holds_shared th = true.
Proof.
  unfold in_window, holds_exclusive, holds_shared.
  destruct (pc th); simpl; try done; intros _; auto;
    destruct (pnUpdatedRows (frame th)); simpl; auto.
Qed.

(** Under the invariant, a thread inside a counting window is alone inside
    a window. *)
Lemma guard_invariant_excludes m ths a b tha thb :
  guard_invariant m ths ->
  ths !! a = Some tha -> in_counting_window tha = true ->
  ths !! b = Some thb -> in_window thb = true ->
  a = b.
Proof.
  intros (Hs & Hx & Hxs) Ha Hwa%in_counting_window_holds Hb Hwb%in_window_holds.
  destruct (decide (a = b)) as [|Hne]; [done|]. exfalso.
  pose proof (tally_ge_1 _ _ _ _ Ha Hwa) as Hge.
  destruct (exclusive m); [|lia]. specialize (Hxs eq_refl).
  destruct Hwb as [Hwb|Hwb].
  - pose proof (tally_ge_2 _ _ _ _ _ _ Hne Ha Hb Hwa Hwb). lia.
  - pose proof (tally_ge_1 _ _ _ _ Hb Hwb). lia.
Qed.

(** The change counter is only read by calls that asked for it. *)
Lemma thread_step_counting th m w th' m' w' tr :
  thread_step eng th m w = Some (th', m', w', tr) ->
  (pc th = AtChanges -> is_Some (pnUpdatedRows (frame th))) ->
  pc th' = AtChanges -> is_Some (pnUpdatedRows (frame th')).
Proof.
  destruct th as [p sql r f]. unfold thread_step.
  destruct p; simpl.
  - destruct (m_isOpened (self w)); intros [= <- <- <- <-]; done.
  - destruct (pnUpdatedRows f), (lock m), (lock_shared m); simpl;
      try done; intros [= <- <- <- <-]; done.
  - unfold submit, bind, exec, ret; simpl.
    destruct (pnUpdatedRows f) as [v|] eqn:Hpn; [destruct (decide _)|];
      intros [= <- <- <- <-]; simpl; done.
  - unfold changes. intros [= <- <- <- <-]; done.
  - destruct (pnUpdatedRows f); intros [= <- <- <- <-]; done.
  - destruct (switch eng r f w) as [[[[f1 []] w1] t1]|]; [| |done];
      intros [= <- <- <- <-]; simpl; [done|].
    unfold loop_head. by destruct (done f1).
  - destruct (lock m); simpl; [|done]. intros [= <- <- <- <-]; done.
  - unfold close_database. intros [= <- <- <- <-]; done.
  - unfold open_database. intros [= <- <- <- <-]; done.
  - intros [= <- <- <- <-]. simpl. unfold loop_head; simpl. by destruct (negb ok).
  - done.
Qed.

Lemma run_counting sched c :
  Forall (fun th => pc th = AtChanges -> is_Some (pnUpdatedRows (frame th))) (threads c) ->
  Forall (fun th => pc th = AtChanges -> is_Some (pnUpdatedRows (frame th)))
    (threads (run eng sched c)).
Proof.
  revert c. induction sched as [|mv sched IH]; intros c Hall; [done|].
  simpl. apply IH. destruct mv as [t|ms]; simpl; [|done].
  destruct (threads c !! t) as [th|] eqn:Hth; [|done].
  destruct (thread_step eng th (guard c) (shared c)) as [[[[th' m'] w'] tr]|] eqn:Hstep;
    [|done].
  simpl. apply Forall_insert; [done|].
  eapply thread_step_counting; [done|]. by eapply Forall_lookup_1 in Hall.
Qed.

End Guard.

(** * The specification, statement by statement *)

(** ** Busy engines (C4, C5, C6) *)

(** C4: with retries enabled and a non-zero budget, a call on a ready
    connection against an engine that answers BUSY to every submission
    (also after the reconnect) backs off ten times, attempts exactly one
    Reconnect, and returns failure. *)
Theorem C4_busy_exactly_one_reconnect {E} (eng : Engine E) fuel sql rv res pn w :
  always_busy eng ->
  m_isOpened (self w) = true ->
  m_timeoutMs (self w) ≠ 0%Z ->
  12 <= fuel ->
  exists o w' tr,
    ExecStatement eng fuel sql rv res true pn w = Some (o, w', tr) /\
    returned o = false /\ reconnects tr = 1 /\ backoffs tr = 10.
Proof.
  intros Hbusy Hr Ht Hfuel.
  destruct (ExecStatement_terminates eng fuel sql rv res true pn w Ht Hfuel)
    as [[[o w'] tr] Hrun].
  exists o, w', tr. split; [done|].
  apply ExecStatement_inv in Hrun as [(Hr' & _)|(_ & f & Hl & Hret & _)]; [congruence|].
  destruct (busy_loop _ _ _ _ _ _ _ _ _ Hbusy Hl eq_refl) as [Hrv Ha].
  pose proof (loop_reconnects _ _ _ _ _ _ _ _ _ Hl) as Hrec.
  pose proof (busy_backoffs _ _ _ _ _ _ _ _ Hbusy Hl Ht) as Hback.
  rewrite Ha in Hrec. simpl in Hrec.
  rewrite Hret, Hrv, Hback. split; [reflexivity|]. split; [lia|reflexivity].
Qed.

Lemma C4_witness :
  exists o w' tr,
    ExecStatement (Busy.api (SQLITE_OK, 2%Z)) 12 "SELECT 1" 0 [] true None
      (connected 3000 0) = Some (o, w', tr) /\
    returned o = false /\ reconnects tr = 1 /\ backoffs tr = 10.
Proof.
  apply (C4_busy_exactly_one_reconnect (Busy.api (SQLITE_OK, 2%Z))).
  - intros h sql e. reflexivity.
  - reflexivity.
  - simpl. lia.
  - lia.
Defined.

(** With a zero budget a call does not return while the engine answers
    BUSY. *)
Lemma ExecStatement_unbounded_busy {E} (eng : Engine E) n fuel sql rv res retry pn w :
  m_isOpened (self w) = true ->
  m_timeoutMs (self w) = 0%Z ->
  busy_streak eng n (m_database (self w)) sql (engine w) ->
  fuel <= n ->
  ExecStatement eng fuel sql rv res retry pn w = None.
Proof.
  intros Hr Ht Hstreak Hle. rewrite ExecStatement_ready by done.
  destruct (backoff_rounds eng n sql retry (entry_frame rv res pn) w Ht eq_refl Hstreak)
    as (f_n & w_n & tr_n & Hrun & _ & Hd & _).
  destruct (ExecStatement_loop eng fuel _ _ _ _) as [r|] eqn:Hl; [|done].
  apply (loop_fuel_mono eng fuel (n + 0)) in Hl; [|lia].
  rewrite Hrun in Hl. simpl in Hl. rewrite Hd in Hl. done.
Qed.

(** C5 as stated fails: with the budget at 0 the retry flag is not even
    consulted, and against a permanently busy engine the call never
    returns. *)
Lemma C5_counterexample :
  ~ exists fuel r,
      ExecStatement (Busy.api (SQLITE_OK, 2%Z)) fuel "SELECT 1" 0 [] false None
        (connected 0 0) = Some r.
Proof.
  intros (fuel & r & Hrun).
  rewrite (ExecStatement_unbounded_busy _ fuel fuel) in Hrun; try done.
  by apply always_busy_streak.
Qed.

(** C5, amended: with the retry flag false and a non-zero budget, a call
    against an engine that answers BUSY to every submission returns failure
    within two iterations, having attempted at most one Reconnect (exactly
    one if the connection was ready, none otherwise). *)
Theorem C5_no_retry_terminates {E} (eng : Engine E) fuel sql rv res pn w :
  always_busy eng ->
  m_timeoutMs (self w) ≠ 0%Z ->
  2 <= fuel ->
  exists o w' tr,
    ExecStatement eng fuel sql rv res false pn w = Some (o, w', tr) /\
    returned o = false /\ reconnects tr <= 1 /\
    reconnects tr = (if m_isOpened (self w) then 1 else 0).
Proof.
  intros Hbusy Ht Hfuel. destruct (m_isOpened (self w)) eqn:Hr.
  - rewrite ExecStatement_ready by done.
    destruct (loop_terminates eng fuel sql false (entry_frame rv res pn) w Ht)
      as [[[f w'] tr] Hl]; [unfold budget; simpl; lia|].
    rewrite Hl. eexists _, _, _. split; [done|]. simpl.
    destruct (busy_loop _ _ _ _ _ _ _ _ _ Hbusy Hl eq_refl) as [-> Ha].
    apply loop_reconnects in Hl. rewrite Ha in Hl. simpl in Hl.
    split; [done|]. split; lia.
  - rewrite ExecStatement_not_ready by done. eexists _, _, _. split; [done|].
    simpl. split; [done|]. cbv. split; [lia|done].
Qed.

Lemma C5_witness :
  exists o w' tr,
    ExecStatement (Busy.api (SQLITE_OK, 2%Z)) 2 "SELECT 1" 0 [] false None
      (connected 3000 0) = Some (o, w', tr) /\
    returned o = false /\ reconnects tr <= 1 /\ reconnects tr = 1.
Proof.
  apply (C5_no_retry_terminates (Busy.api (SQLITE_OK, 2%Z)) 2 "SELECT 1" 0 [] None
           (connected 3000 0)).
  - intros h sql e. reflexivity.
  - simpl. lia.
  - lia.
Defined.

(** C6: with the budget at 0, as long as the submissions are answered BUSY
    the call has not returned, and whatever it does afterwards its trace
    starts with one 15 ms backoff per BUSY answer and no Reconnect (no close,
    no open).  More generally any iteration of the loop, wherever in the call,
    whose submission is answered BUSY while the budget is 0 takes the backoff
    branch and goes round again. *)
Theorem C6_unlimited_budget_backs_off {E} (eng : Engine E) n fuel sql rv res retry pn w :
  m_isOpened (self w) = true ->
  m_timeoutMs (self w) = 0%Z ->
  busy_streak eng n (m_database (self w)) sql (engine w) ->
  (fuel <= n -> ExecStatement eng fuel sql rv res retry pn w = None) /\
  (forall o w' tr,
     ExecStatement eng fuel sql rv res retry pn w = Some (o, w', tr) ->
     exists tr_n tr_rest,
       tr = tr_n ++ tr_rest /\ submissions tr_n = n /\ backoffs tr_n = n /\
       reconnects tr_n = 0 /\ count_if is_close tr_n = 0) /\
  (forall f w1,
     m_timeoutMs (self w1) = 0%Z ->
     (sqlite3_a3d_exec eng (m_database (self w1)) sql (engine w1)).1.1 = SQLITE_BUSY ->
     exists f' w' tr,
       ExecStatement_body eng sql retry f w1 = Some (f', w', tr) /\
       backoffs tr = 1 /\ reconnects tr = 0 /\ done f' = done f).
Proof.
  intros Hr Ht Hstreak. split; [|split].
  - by apply ExecStatement_unbounded_busy.
  - intros o w' tr Hrun.
    destruct (decide (fuel <= n)) as [Hle|Hgt].
    { by rewrite (ExecStatement_unbounded_busy eng n) in Hrun. }
    apply ExecStatement_inv in Hrun as [(Hr' & _)|(_ & f & Hl & _)]; [congruence|].
    destruct (backoff_rounds eng n sql retry (entry_frame rv res pn) w Ht eq_refl Hstreak)
      as (f_n & w_n & tr_n & Hrun & _ & _ & _ & _ & Hs & Hb & Hrec & Hcl).
    replace fuel with (n + (fuel - n)) in Hl by lia. rewrite Hrun in Hl.
    destruct (ExecStatement_loop eng (fuel - n) _ _ _ _) as [[[f2 w2] t2]|]; [|done].
    injection Hl as _ _ <-. by exists tr_n, t2.
  - intros f w1 Ht1 Hrc.
    destruct (busy_iteration_backs_off eng sql retry f w1 Ht1 Hrc)
      as (f' & w' & tr & Hb & _ & Hback & Hrec & _ & Hd & _).
    by exists f', w', tr.
Qed.

Lemma C6_witness :
  let script :=
    Scripted.make
      [(SQLITE_BUSY, []); (SQLITE_BUSY, []); (SQLITE_BUSY, []); (SQLITE_OK, [[Some "1"]])]
      [] 1 in
  let run := ExecStatement Scripted.api 10 "SELECT 1" 0 [] false None (connected 0 script) in
  (exists o w' tr,
     run = Some (o, w', tr) /\ returned o = true /\
     backoffs tr = 3 /\ reconnects tr = 0) /\
  (forall o w' tr,
     run = Some (o, w', tr) ->
     exists tr_n tr_rest,
       tr = tr_n ++ tr_rest /\ submissions tr_n = 3 /\ backoffs tr_n = 3 /\
       reconnects tr_n = 0 /\ count_if is_close tr_n = 0).
Proof.
  intros script run. split.
  - eexists _, _, _. repeat split; reflexivity.
  - refine (proj1 (proj2 (C6_unlimited_budget_backs_off Scripted.api 3 10
                            "SELECT 1" 0 [] false None (connected 0 script) _ _ _))).
    + reflexivity.
    + reflexivity.
    + simpl. repeat split; reflexivity.
Defined.

(** ** The result container (C1, C10) *)

(** C1 as stated fails: a successful call whose callback is invoked twice
    with three columns hands back three entries of two cells, not two
    entries of three cells. *)
Lemma C1_counterexample :
  exists o w' tr,
    ExecStatement Scripted.api 1 "SELECT a, b, c FROM t" 0 [] true None
      (connected 3000
         (Scripted.make
            [(SQLITE_OK, [[Some "a1"; Some "b1"; None]; [Some "a2"; Some "b2"; Some "c2"]])]
            [] 1))
    = Some (o, w', tr) /\
    returned o = true /\
    out_results o = [["a1"; "a2"]; ["b1"; "b2"]; [EmptyString; "c2"]] /\
    ~ row_per_invocation (delivered tr) (out_results o).
Proof.
  eexists _, _, _. split; [reflexivity|]. split; [reflexivity|]. split; [reflexivity|].
  intros [Hlen _]. simpl in Hlen. discriminate.
Qed.

(** C1, amended: for a successful call that starts from an empty container
    and whose callback invocations all report the same column count [n], the
    container handed back is column-major: it is empty if the callback was
    never invoked, and otherwise has [n] entries, entry [j] holding one cell
    per invocation, in order, with the text of that invocation's value [j]
    and the empty text for an engine NULL. *)
Theorem C1_column_per_entry {E} (eng : Engine E) fuel sql rv retry pn w o w' tr n :
  ExecStatement eng fuel sql rv [] retry pn w = Some (o, w', tr) ->
  returned o = true ->
  Forall (fun data => length data = n) (delivered tr) ->
  (delivered tr = [] -> out_results o = []) /\
  (delivered tr ≠ [] ->
   length (out_results o) = n /\
   forall j, j < n ->
     out_results o !! j =
     Some (map (fun data => cell (default None (data !! j))) (delivered tr)) /\
     length <$> out_results o !! j = Some (length (delivered tr))).
Proof.
  intros Hrun _ Hall. apply ExecStatement_results in Hrun. rewrite Hrun. split.
  - intros ->. done.
  - intros Hne. split.
    + destruct (delivered tr) as [|d0 rows0] eqn:Hrows using rev_ind; [done|].
      rewrite collect_length_last. apply Forall_app in Hall as [_ Hd].
      by rewrite Forall_singleton in Hd.
    + intros j Hj.
      rewrite collect_lookup; [|by eapply Forall_impl; [done|]; intros d ->|done].
      simpl. split; [done|]. by rewrite length_map.
Qed.

Lemma C1_witness :
  let run :=
    ExecStatement Scripted.api 1 "SELECT a, b, c FROM t" 0 [] true None
      (connected 3000
         (Scripted.make
            [(SQLITE_OK, [[Some "a1"; Some "b1"; None]; [Some "a2"; Some "b2"; Some "c2"]])]
            [] 1)) in
  exists o w' tr,
    run = Some (o, w', tr) /\
    length (out_results o) = 3 /\
    forall j, j < 3 ->
      out_results o !! j =
      Some (map (fun data => cell (default None (data !! j))) (delivered tr)) /\
      length <$> out_results o !! j = Some (length (delivered tr)).
Proof.
  intros run. eexists _, _, _. split; [reflexivity|].
  refine (proj2 (C1_column_per_entry Scripted.api 1 "SELECT a, b, c FROM t" 0 true None
                   _ _ _ _ 3 (eq_refl : run = Some _) eq_refl _) _).
  - simpl. repeat constructor.
  - simpl. discriminate.
Defined.

(** C10: the container is never cleared inside a call.  What is handed back
    is the caller's container with the rows of every submission folded in,
    in order; splitting the trace anywhere, the rows of the later part are
    folded onto what the earlier part left; and for every column [j] that all
    delivered rows have, entry [j] is its former content followed by the
    cells of all submissions, failed ones included. *)
Theorem C10_container_accumulates {E} (eng : Engine E) fuel sql rv res retry pn w o w' tr :
  ExecStatement eng fuel sql rv res retry pn w = Some (o, w', tr) ->
  out_results o = collect (delivered tr) res /\
  (forall tr1 tr2, tr = tr1 ++ tr2 ->
     out_results o = collect (delivered tr2) (collect (delivered tr1) res)) /\
  (forall j,
     delivered tr ≠ [] -> Forall (fun data => j < length data) (delivered tr) ->
     out_results o !! j =
     Some (default [] (res !! j) ++
           map (fun data => cell (default None (data !! j))) (delivered tr))).
Proof.
  intros Hrun. apply ExecStatement_results in Hrun. rewrite Hrun.
  split; [done|]. split.
  - intros tr1 tr2 ->. by rewrite delivered_app, collect_app.
  - intros j Hne Hall. by apply collect_lookup.
Qed.

(** A successful call whose first submission delivers a row and then fails:
    after the reconnect the statement is run again, and the container holds
    the rows of both submissions. *)
Lemma C10_witness :
  let run :=
    ExecStatement Scripted.api 2 "SELECT name FROM t" 0 [["kept"]] true None
      (connected 3000
         (Scripted.make
            [(SQLITE_IOERR, [[Some "first"]]);
             (SQLITE_OK, [[Some "first"]; [Some "second"]])]
            [] 1)) in
  exists o w' tr,
    run = Some (o, w', tr) /\
    returned o = true /\ submissions tr = 2 /\
    out_results o = [["kept"; "first"; "first"; "second"]] /\
    out_results o = collect (delivered tr) [["kept"]].
Proof.
  intros run. eexists _, _, _. split; [reflexivity|].
  split; [reflexivity|]. split; [reflexivity|]. split; [reflexivity|].
  refine (proj1 (C10_container_accumulates Scripted.api 2 "SELECT name FROM t" 0
                   [["kept"]] true None _ _ _ _ (eq_refl : run = Some _))).
Defined.

(** ** Reconnecting and closing (C3, C8, C2) *)

(** C3 as stated fails: with a transaction in flight (autocommit off),
    [Reconnect] submits nothing before it closes the handle. *)
Lemma C3_counterexample :
  exists ok w' tr,
    Reconnect Scripted.api
      (connected 3000 (Scripted.make [] [] 0))
    = Some (ok, w', tr) /\
    tr = [EvLock; EvClose 1%Z; EvOpen "a3d.db" 65542 0 2%Z; EvUnlock] /\
    ~ rolls_back_before_close tr.
Proof.
  eexists _, _, _. split; [reflexivity|]. split; [reflexivity|].
  intros (pre & h & rc & rows & post & h' & Htr & _).
  destruct pre as [|? [|? [|? [|? [|? ?]]]]]; discriminate.
Qed.

(** C3, amended: whether or not a transaction is in flight, [Reconnect]
    takes the guard exclusively, closes the current handle, opens the same
    path with the same flags and releases the guard; it makes no other call
    to the engine, so no rollback is attempted, and it reports whether the
    open succeeded. *)
Theorem C3_reconnect_closes_and_opens {E} (eng : Engine E) w :
  exists rc h' e',
    sqlite3_a3d_open_v2 eng (m_databasePath (self w)) OPEN_FLAGS
      (sqlite3_a3d_close_v2 eng (m_database (self w)) (engine w)) = (rc, h', e') /\
    Reconnect eng w =
    Some (bool_decide (rc = SQLITE_OK),
          {| self := set_database h' (self w); engine := e' |},
          [EvLock; EvClose (m_database (self w));
           EvOpen (m_databasePath (self w)) OPEN_FLAGS rc h'; EvUnlock]).
Proof.
  rewrite Reconnect_eq. simpl.
  destruct (sqlite3_a3d_open_v2 _ _ _ _) as [[rc h'] e']. by exists rc, h', e'.
Qed.

(** [DestroyDatabase] on an open connection, spelled out. *)
Lemma DestroyDatabase_open {E} (eng : Engine E) fuel w :
  m_database (self w) ≠ nullptr ->
  m_isOpened (self w) = true ->
  DestroyDatabase eng fuel w =
  let h := m_database (self w) in
  let v := sqlite3_a3d_get_autocommit eng h (engine w) in
  if decide (0%Z = v) then
    match RollBackTransaction eng fuel w with
    | None => None
    | Some (rolledBack, w1, tr1) =>
        Some (true, closed eng w1,
              EvAutocommit h v :: tr1 ++
              (if rolledBack then []
               else [EvCout "DestroyDatabase: could not rollback transaction"]) ++
              [EvClose (m_database (self w1))])
    end
  else Some (true, closed eng w, [EvAutocommit h v; EvClose h]).
Proof.
  intros Hdb Hop. unfold DestroyDatabase.
  unfold bind at 1. unfold member at 1. unfold bind at 1. unfold member at 1.
  rewrite Hop, bool_decide_eq_false_2 by done. simpl.
  unfold IsInTransaction. unfold bind at 2. unfold get_autocommit at 1.
  unfold ret at 1. unfold bind at 1. simpl.
  destruct (decide _) as [Hv|Hv].
  - rewrite bool_decide_eq_true_2 by done.
    unfold bind at 1. unfold bind at 1.
    destruct (RollBackTransaction eng fuel w) as [[[[] w1] tr1]|]; simpl; [| |done].
    + by rewrite !app_nil_r.
    + by rewrite <- (assoc_L (++)).
  - rewrite bool_decide_eq_false_2 by done. simpl. done.
Qed.

(** The first thing a rollback on a ready connection does is to submit
    ROLLBACK TRANSACTION on the current handle, under the shared guard. *)
Lemma RollBackTransaction_submits {E} (eng : Engine E) fuel w ok w1 tr1 :
  m_isOpened (self w) = true ->
  RollBackTransaction eng fuel w = Some (ok, w1, tr1) ->
  exists rc rows rest,
    tr1 = EvLockShared :: EvExec (m_database (self w)) "ROLLBACK TRANSACTION" rc rows
          :: EvUnlockShared :: rest.
Proof.
  intros Hr. unfold RollBackTransaction.
  intros (o & w2 & t2 & t3 & Hrun & [= <- <- <-] & ->)%bind_Some.
  apply ExecStatement_inv in Hrun as [(Hr' & _)|(_ & f & Hl & _)]; [congruence|].
  destruct fuel as [|fuel]; [done|].
  destruct (body_total eng "ROLLBACK TRANSACTION" true (entry_frame 0 [] None) w)
    as [[[f1 w1'] t1] Hb].
  rewrite (loop_step eng _ _ _ (entry_frame 0 [] None) _ _ _ _ eq_refl Hb) in Hl.
  destruct (ExecStatement_loop _ _ _ _ _ _) as [[[f2 w2'] t2']|]; [|done].
  injection Hl as _ _ <-.
  apply body_inv in Hb as (f0 & w0 & t0 & t0' & Hs & _ & ->).
  rewrite submission_eq in Hs. simpl in Hs. injection Hs as _ _ <-.
  simpl. rewrite app_nil_r. eauto.
Qed.

(** C8: destroying an open connection while a transaction is active first
    submits a rollback on the handle and only then closes a handle; when the
    rollback reports failure the diagnostic is written, and in either case
    destruction completes: the handle is released, the flag cleared and the
    member reset.  With a non-zero budget the rollback, and so the
    destruction, always returns. *)
Theorem C8_destroy_rolls_back_first {E} (eng : Engine E) fuel w :
  m_database (self w) ≠ nullptr ->
  m_isOpened (self w) = true ->
  sqlite3_a3d_get_autocommit eng (m_database (self w)) (engine w) = 0%Z ->
  (m_timeoutMs (self w) ≠ 0%Z -> 12 <= fuel -> is_Some (DestroyDatabase eng fuel w)) /\
  (forall rolledBack w1 tr1,
     RollBackTransaction eng fuel w = Some (rolledBack, w1, tr1) ->
     exists rc rows rest,
       tr1 = EvLockShared
             :: EvExec (m_database (self w)) "ROLLBACK TRANSACTION" rc rows
             :: EvUnlockShared :: rest /\
       DestroyDatabase eng fuel w =
       Some (true, closed eng w1,
             EvAutocommit (m_database (self w)) 0 :: tr1 ++
             (if rolledBack then []
              else [EvCout "DestroyDatabase: could not rollback transaction"]) ++
             [EvClose (m_database (self w1))]) /\
       m_isOpened (self (closed eng w1)) = false /\
       m_database (self (closed eng w1)) = nullptr).
Proof.
  intros Hdb Hop Hauto.
  pose proof (DestroyDatabase_open eng fuel w Hdb Hop) as Heq.
  simpl in Heq. rewrite Hauto in Heq. rewrite decide_True in Heq by done. split.
  - intros Ht Hfuel. rewrite Heq. unfold RollBackTransaction.
    destruct (ExecStatement_terminates eng fuel "ROLLBACK TRANSACTION" 0 [] true None w
                Ht Hfuel) as [[[o w1] t1] Hrun].
    rewrite (bind_Some_l _ _ _ _ _ _ Hrun). done.
  - intros rolledBack w1 tr1 Hrb.
    destruct (RollBackTransaction_submits eng fuel w _ _ _ Hop Hrb) as (rc & rows & rest & ->).
    exists rc, rows, rest. rewrite Heq, Hrb. done.
Qed.

Lemma C8_witness :
  let w := connected 3000 (Scripted.make [(SQLITE_IOERR, [])] [(14%Z, nullptr)] 0) in
  exists w' tr,
    DestroyDatabase Scripted.api 12 w = Some (true, w', tr) /\
    m_isOpened (self w') = false /\ m_database (self w') = nullptr /\
    tr = [EvAutocommit 1 0;
          EvLockShared; EvExec 1 "ROLLBACK TRANSACTION" 10 []; EvUnlockShared;
          EvLock; EvClose 1; EvOpen "a3d.db" 65542 14 0; EvUnlock;
          EvCout "DestroyDatabase: could not rollback transaction";
          EvClose 0].
Proof.
  intros w.
  assert (Hdb : m_database (self w) ≠ nullptr) by discriminate.
  destruct (proj2 (C8_destroy_rolls_back_first Scripted.api 12 w Hdb eq_refl eq_refl)
              _ _ _ eq_refl) as (rc & rows & rest & _ & Hrun & Hop & Hnull).
  eexists _, _. split; [exact Hrun|]. split; [exact Hop|]. split; [exact Hnull|].
  reflexivity.
Defined.

(** The invariant survives [DestroyDatabase] and [SetTimeout]. *)
Lemma DestroyDatabase_invariant {E} (eng : Engine E) fuel w ok w' tr :
  DestroyDatabase eng fuel w = Some (ok, w', tr) ->
  handle_flag_invariant (self w) -> handle_flag_invariant (self w').
Proof.
  intros Hrun Hinv.
  destruct (decide (m_database (self w) = nullptr)) as [Hdb|Hdb].
  - unfold DestroyDatabase, bind, member, ret in Hrun.
    rewrite bool_decide_eq_true_2 in Hrun by done. simpl in Hrun. congruence.
  - pose proof (proj1 Hinv Hdb) as Hop.
    rewrite DestroyDatabase_open in Hrun by done. simpl in Hrun.
    destruct (decide _); [destruct (RollBackTransaction _ _ _) as [[[? ?] ?]|]|];
      simplify_eq; by split.
Qed.

Lemma SetTimeout_invariant {E} ms (w : World E) u w' tr :
  SetTimeout ms w = Some (u, w', tr) ->
  handle_flag_invariant (self w) -> handle_flag_invariant (self w').
Proof. intros [= _ <- _]. done. Qed.

(** A failed open breaks the invariant one way or the other: if the engine
    hands back a handle, as SQLite does unless it is out of memory,
    construction leaves a non-null handle with the flag false; if it hands
    back none, [Reconnect] leaves a null handle with the flag true. *)
Lemma InitDatabase_failure_keeps_handle {E} (eng : Engine E) path timeoutMs e rc h e' :
  sqlite3_a3d_open_v2 eng path OPEN_FLAGS e = (rc, h, e') ->
  rc ≠ SQLITE_OK -> h ≠ nullptr ->
  exists w' tr,
    SqliteWrapper_new_timeout eng path timeoutMs e = Some (false, w', tr) /\
    m_isOpened (self w') = false /\ m_database (self w') = h /\
    ~ handle_flag_invariant (self w').
Proof.
  intros Hopen Hrc Hh.
  unfold SqliteWrapper_new_timeout, InitDatabase, bind, member, open_database, ret; simpl.
  rewrite Hopen; simpl. rewrite decide_True by done. simpl.
  eexists _, _. split; [done|]. simpl. split; [done|]. split; [done|].
  intros [Hinv _]. simpl in Hinv. by specialize (Hinv Hh).
Qed.

Lemma Reconnect_failure_keeps_flag {E} (eng : Engine E) w rc e' :
  m_isOpened (self w) = true ->
  sqlite3_a3d_open_v2 eng (m_databasePath (self w)) OPEN_FLAGS
    (sqlite3_a3d_close_v2 eng (m_database (self w)) (engine w)) = (rc, nullptr, e') ->
  rc ≠ SQLITE_OK ->
  exists w' tr,
    Reconnect eng w = Some (false, w', tr) /\
    m_isOpened (self w') = true /\ m_database (self w') = nullptr /\
    ~ handle_flag_invariant (self w').
Proof.
  intros Hop Hopen Hrc. rewrite Reconnect_eq. simpl. rewrite Hopen. simpl.
  rewrite bool_decide_eq_false_2 by done.
  eexists _, _. split; [done|]. simpl. split; [done|]. split; [done|].
  intros [_ Hinv]. simpl in Hinv. by specialize (Hinv Hop).
Qed.

(** C2: the invariant does not hold throughout.  Constructing on a path
    that cannot be opened, where the engine answers CANTOPEN (14) and still
    hands back handle 7, leaves a non-null handle with the flag false.  On an
    open connection satisfying the invariant, a call whose submission
    fails with IOERR and whose replacement open fails without a handle
    returns failure and leaves a null handle with the flag true. *)
Theorem C2_invariant_broken :
  (exists w' tr,
     SqliteWrapper_new_timeout Scripted.api "/missing/a3d.db" 3000
       (Scripted.make [] [(14%Z, 7%Z)] 1) = Some (false, w', tr) /\
     m_isOpened (self w') = false /\ m_database (self w') = 7%Z /\
     ~ handle_flag_invariant (self w')) /\
  (let w := connected 3000 (Scripted.make [(SQLITE_IOERR, [])] [(14%Z, nullptr)] 1) in
   handle_flag_invariant (self w) /\
   exists o w' tr,
     ExecStatement Scripted.api 12 "SELECT 1" 0 [] true None w = Some (o, w', tr) /\
     returned o = false /\ reconnects tr = 1 /\
     m_isOpened (self w') = true /\ m_database (self w') = nullptr /\
     ~ handle_flag_invariant (self w')).
Proof.
  split.
  - eexists _, _. split; [reflexivity|]. split; [reflexivity|]. split; [reflexivity|].
    intros [Hinv _]. simpl in Hinv. by specialize (Hinv ltac:(discriminate)).
  - split; [by split|].
    eexists _, _, _. split; [reflexivity|]. repeat (split; [reflexivity|]).
    intros [_ Hinv]. simpl in Hinv. by specialize (Hinv eq_refl).
Qed.

(** ** Concurrency (C9, C7) *)

(** Two calls that ask for no row count, both about to take the guard while
    nobody holds it exclusively, are both let in. *)
Lemma shared_call_admitted {E} (eng : Engine E) (c : Config E) a tha :
  threads c !! a = Some tha -> pc tha = AtAcquire ->
  pnUpdatedRows (frame tha) = None -> exclusive (guard c) = false ->
  step eng c (Run a) =
  Some {| shared := shared c;
          guard := {| exclusive := false; sharers := S (sharers (guard c)) |};
          threads := <[a := at_pc AtExec (frame tha) tha]> (threads c);
          history := history c ++ [(a, EvLockShared)] |}.
Proof.
  intros Ha Hpa Hna Hx. unfold step. rewrite Ha. unfold thread_step.
  rewrite Hpa, Hna. unfold lock_shared. rewrite Hx. done.
Qed.

Lemma shared_calls_admitted {E} (eng : Engine E) (c : Config E) a b tha thb :
  a ≠ b -> threads c !! a = Some tha -> threads c !! b = Some thb ->
  pc tha = AtAcquire -> pc thb = AtAcquire ->
  pnUpdatedRows (frame tha) = None -> pnUpdatedRows (frame thb) = None ->
  exclusive (guard c) = false ->
  let c' := run eng [Run a; Run b] c in
  threads c' !! a = Some (at_pc AtExec (frame tha) tha) /\
  threads c' !! b = Some (at_pc AtExec (frame thb) thb) /\
  exclusive (guard c') = false /\ sharers (guard c') = 2 + sharers (guard c).
Proof.
  intros Hne Ha Hb Hpa Hpb Hna Hnb Hx c'. subst c'.
  change (run eng [Run a; Run b] c) with
    (default (default c (step eng c (Run a)))
       (step eng (default c (step eng c (Run a))) (Run b))).
  rewrite (shared_call_admitted eng c a tha) by done. cbn [default].
  rewrite (shared_call_admitted eng _ b thb); try done;
    [|by cbn; rewrite list_lookup_insert_ne].
  cbn. rewrite list_lookup_insert_ne by congruence.
  rewrite !list_lookup_insert_eq; rewrite ?length_insert;
    try done; by eapply lookup_lt_Some.
Qed.

(** C9: the guard discipline.  The window of one iteration is taken
    exclusively iff a row-count slot is passed, and then spans the submission
    and the reading of the change counter; otherwise it is taken shared.  In
    every state that threads calling [ExecStatement] on one object can reach,
    whatever the schedule: a call inside its window holds the guard in that
    mode; a call inside a row-count window is the only call inside a window;
    and two calls without a row-count slot that are about to take the guard,
    unless it is held exclusively, are both let in. *)
Theorem C9_guard_discipline {E} (eng : Engine E) (w : World E) ths sched :
  Forall (fun th => pc th = AtEntry) ths ->
  let c := run eng sched (boot w ths) in
  (forall sql f w0, exists f' w' rc rows,
     let h := m_database (self w0) in
     submission eng sql f w0 =
     Some (f', w',
           match pnUpdatedRows f with
           | Some _ =>
               [EvLock; EvExec h sql rc rows] ++
               (if decide (rc = 0%Z)
                then [EvChanges h (sqlite3_a3d_changes eng h (engine w'))] else []) ++
               [EvUnlock]
           | None => [EvLockShared; EvExec h sql rc rows; EvUnlockShared]
           end)) /\
  (forall t th,
     threads c !! t = Some th -> in_window th = true ->
     match pnUpdatedRows (frame th) with
     | Some _ => exclusive (guard c) = true /\ sharers (guard c) = 0
     | None => exclusive (guard c) = false /\ 1 <= sharers (guard c)
     end) /\
  (forall a b tha thb,
     threads c !! a = Some tha -> in_counting_window tha = true ->
     threads c !! b = Some thb -> in_window thb = true ->
     a = b) /\
  (forall a b tha thb,
     a ≠ b -> threads c !! a = Some tha -> threads c !! b = Some thb ->
     pc tha = AtAcquire -> pc thb = AtAcquire ->
     pnUpdatedRows (frame tha) = None -> pnUpdatedRows (frame thb) = None ->
     exclusive (guard c) = false ->
     let c' := run eng [Run a; Run b] c in
     threads c' !! a = Some (at_pc AtExec (frame tha) tha) /\
     threads c' !! b = Some (at_pc AtExec (frame thb) thb) /\
     exclusive (guard c') = false /\ sharers (guard c') = 2 + sharers (guard c)).
Proof.
  intros Hidle c.
  pose proof (run_guard_invariant eng sched _ (boot_guard_invariant w ths Hidle))
    as Hinv. fold c in Hinv.
  assert (Hcount : Forall (fun th => pc th = AtChanges ->
                                     is_Some (pnUpdatedRows (frame th))) (threads c)).
  { apply run_counting. simpl. eapply Forall_impl; [done|].
    intros th Hpc. by rewrite Hpc. }
  split; [|split; [|split]].
  - intros sql f w0. rewrite submission_eq. simpl.
    set (r := sqlite3_a3d_exec eng (m_database (self w0)) sql (engine w0)).
    destruct (pnUpdatedRows f);
      [|by eexists _, {| self := self w0; engine := r.2 |}, r.1.1, r.1.2].
    destruct (decide (r.1.1 = 0%Z)) as [Hrc|Hrc];
      eexists _, {| self := self w0; engine := r.2 |}, r.1.1, r.1.2; simpl;
      [rewrite decide_True by done|rewrite decide_False by done]; reflexivity.
  - intros t th Hth Hwin. destruct Hinv as (Hs & Hx & Hxs).
    destruct (pnUpdatedRows (frame th)) as [v|] eqn:Hpn.
    + assert (holds_exclusive th = true) as Hh.
      { unfold in_window in Hwin. unfold holds_exclusive.
        destruct (pc th); try done; by rewrite Hpn. }
      pose proof (tally_ge_1 _ _ _ _ Hth Hh).
      destruct (exclusive (guard c)); [auto|lia].
    + assert (holds_shared th = true) as Hh.
      { unfold in_window in Hwin. unfold holds_shared.
        pose proof (Forall_lookup_1 _ _ _ _ Hcount Hth) as Hwf. simpl in Hwf.
        destruct (pc th) eqn:Hpc; try done; try by rewrite Hpn.
        specialize (Hwf eq_refl). rewrite Hpn in Hwf. by destruct Hwf. }
      pose proof (tally_ge_1 _ _ _ _ Hth Hh).
      destruct (exclusive (guard c)); [specialize (Hxs eq_refl)|]; split; lia || done.
  - intros a b tha thb. exact (guard_invariant_excludes _ _ a b tha thb Hinv).
  - intros a b tha thb. apply shared_calls_admitted.
Qed.

(** Two SELECTs and an UPDATE asking for its row count, all started, the
    SELECTs inside their window together and the UPDATE waiting. *)
Lemma C9_witness :
  let c := run Scripted.api [Run 0; Run 1; Run 2; Run 0; Run 1; Run 2]
             (boot (connected 3000 (Scripted.make [] [] 1))
                [call "SELECT 1" 0 [] true None; call "SELECT 2" 0 [] true None;
                 call "UPDATE t SET x = 1" 0 [] true (Some 0%Z)]) in
  (pc <$> threads c = [AtExec; AtExec; AtAcquire]) /\
  guard c = {| exclusive := false; sharers := 2 |} /\
  (forall a b tha thb,
     threads c !! a = Some tha -> in_counting_window tha = true ->
     threads c !! b = Some thb -> in_window thb = true ->
     a = b).
Proof.
  intros c. split; [reflexivity|]. split; [reflexivity|].
  refine (proj1 (proj2 (proj2 (C9_guard_discipline Scripted.api _ _ _ _)))).
  repeat constructor.
Defined.

(** C7 as stated fails.  A call enters its loop with the budget at 0 against
    a permanently busy engine and backs off twice; with a [SetTimeout(3000)]
    slipped in at that point the same twelve further steps take it through
    a Reconnect to a failed return, while without it the call is still
    backing off. *)
Lemma C7_counterexample :
  let eng := Busy.api (SQLITE_OK, 2%Z) in
  let c0 := boot (connected 0 0) [call "SELECT 1" 0 [] false None] in
  let before := replicate 9 (Run 0) in
  let after := replicate 12 (Run 0) in
  pc <$> threads (run eng before c0) = [AtAcquire] /\
  backoffs (snd <$> history (run eng before c0)) = 2 /\
  pc <$> threads (run eng (before ++ after) c0) = [AtAcquire] /\
  pc <$> threads (run eng (before ++ CallSetTimeout 3000 :: after) c0) = [Returned false] /\
  ~ unaffected_by_SetTimeout eng c0 0 before 3000 after.
Proof.
  intros eng c0 before after.
  split; [reflexivity|]. split; [reflexivity|]. split; [reflexivity|].
  split; [reflexivity|].
  unfold unaffected_by_SetTimeout. intros Heq. vm_compute in Heq. discriminate.
Qed.

(** The switch on a BUSY answer, as a function of the budget it reads. *)
Lemma switch_busy {E} (eng : Engine E) r f w :
  retValue f = SQLITE_BUSY ->
  switch eng r f w =
  let '(again, f') := busy_retry (m_timeoutMs (self w)) r f in
  if again then Some ((f', false), w, [EvSleep 15])
  else if alreadyTriedReconnecting f' then Some ((set_done true f', false), w, [])
  else Some ((f', true), w, []).
Proof.
  intros Hb. unfold switch, escalate. rewrite decide_True by done.
  unfold bind, member, emit, ret; simpl.
  destruct (busy_retry _ _ _) as [[] f']; simpl; [done|].
  by destruct (alreadyTriedReconnecting f').
Qed.

(** C7, amended: [SetTimeout] replaces the budget at once, for the calls
    that start afterwards and for a call already inside its retry loop alike:
    the loop reads the member afresh at every BUSY answer, so when a
    [SetTimeout(ms)] slips in before a thread's switch, the thread backs off,
    gives up or goes to reconnect according to [ms], whatever the budget was
    when it entered the loop. *)
Theorem C7_budget_read_at_every_busy {E} (eng : Engine E) (c : Config E) t th ms :
  threads c !! t = Some th ->
  pc th = AtSwitch ->
  retValue (frame th) = SQLITE_BUSY ->
  (forall fuel sql rv res r pn,
     (SetTimeout ms;; ExecStatement eng fuel sql rv res r pn) (shared c) =
     ExecStatement eng fuel sql rv res r pn
       {| self := set_timeoutMs (to_unsigned ms) (self (shared c));
          engine := engine (shared c) |}) /\
  exists c1 c2,
    step eng c (CallSetTimeout ms) = Some c1 /\
    m_timeoutMs (self (shared c1)) = to_unsigned ms /\
    step eng c1 (Run t) = Some c2 /\
    let '(again, f') := busy_retry (to_unsigned ms) (retry th) (frame th) in
    threads c2 !! t =
    Some (if again then at_pc (loop_head f') f' th
          else if alreadyTriedReconnecting f'
               then at_pc (loop_head (set_done true f')) (set_done true f') th
               else at_pc AtReconnectLock f' th) /\
    history c2 = history c ++ (if again then [(t, EvSleep 15)] else []).
Proof.
  intros Hth Hpc Hb. split.
  - intros fuel sql rv res r pn. unfold bind at 1. unfold SetTimeout, assign.
    by destruct (ExecStatement _ _ _ _ _ _ _ _) as [[[o w'] tr]|].
  - assert (Hlt : t < length (threads c)) by (by eapply lookup_lt_Some).
    destruct (busy_retry (to_unsigned ms) (retry th) (frame th)) as [again f'] eqn:Hbr.
    destruct again; [|destruct (alreadyTriedReconnecting f') eqn:Ha];
      (eexists _, _; split; [reflexivity|]; split; [reflexivity|];
       unfold step; simpl; rewrite Hth; unfold thread_step; rewrite Hpc;
       rewrite switch_busy by done; simpl; rewrite Hbr; simpl; rewrite ?Ha;
       split; [reflexivity|]; simpl;
       rewrite list_lookup_insert_eq by done; by rewrite ?app_nil_r).
Qed.

(** A call of the always-busy engine stopped at its switch with the budget
    at 0: after [SetTimeout(3000)] it goes to reconnect. *)
Lemma C7_witness :
  let eng := Busy.api (SQLITE_OK, 2%Z) in
  let c := run eng (replicate 4 (Run 0))
             (boot (connected 0 0) [call "SELECT 1" 0 [] false None]) in
  m_timeoutMs (self (shared c)) = 0%Z /\
  exists c1 c2,
    step eng c (CallSetTimeout 3000) = Some c1 /\
    step eng c1 (Run 0) = Some c2 /\
    pc <$> threads c2 = [AtReconnectLock].
Proof.
  intros eng c. split; [reflexivity|].
  destruct (proj2 (C7_budget_read_at_every_busy eng c 0 _ 3000 eq_refl eq_refl eq_refl))
    as (c1 & c2 & H1 & _ & H2 & _).
  exists c1, c2. split; [exact H1|]. split; [exact H2|].
  vm_compute in H1. injection H1 as <-. vm_compute in H2. injection H2 as <-.
  reflexivity.
Defined.

(** * Further properties of the code *)

(** ** Traces *)

Lemma statuses_app tr1 tr2 : statuses (tr1 ++ tr2) = statuses tr1 ++ statuses tr2.
Proof. unfold statuses. apply flat_map_app. Qed.

Lemma texts_app tr1 tr2 : texts (tr1 ++ tr2) = texts tr1 ++ texts tr2.
Proof. unfold texts. apply flat_map_app. Qed.

Lemma opened_app tr1 tr2 : opened (tr1 ++ tr2) = opened tr1 ++ opened tr2.
Proof. unfold opened. apply flat_map_app. Qed.

Lemma guard_run_app s tr1 tr2 :
  guard_run s (tr1 ++ tr2) =
  match guard_run s tr1 with
  | Some s' => guard_run s' tr2
  | None => None
  end.
Proof.
  revert s. induction tr1 as [|ev tr1 IH]; intros s; [done|].
  simpl. destruct (guard_step s ev); [apply IH|done].
Qed.

Section Calls.

Context {E : Type} (eng : Engine E).

Implicit Types (f : Frame) (w : World E) (tr : list Event).

(** What the guarded window leaves in the trace and in the row-count slot. *)
Lemma submission_trace sql f w f1 w1 t1 :
  submission eng sql f w = Some (f1, w1, t1) ->
  statuses t1 = [retValue f1] /\ texts t1 = [sql] /\ opened t1 = [] /\
  guard_run Free t1 = Some Free /\
  count_if is_cout t1 = 0 /\ count_if is_busy_timeout t1 = 0 /\
  count_if is_autocommit t1 = 0 /\
  pnUpdatedRows f1 =
  match pnUpdatedRows f with
  | None => None
  | Some _ =>
      Some (if decide (retValue f1 = 0%Z)
            then sqlite3_a3d_changes eng (m_database (self w1)) (engine w1)
            else 0%Z)
  end.
Proof.
  rewrite submission_eq. simpl.
  destruct (pnUpdatedRows f) as [v|] eqn:Hp; [destruct (decide _) as [Hrc|Hrc]|];
    intros [= <- <- <-]; simpl; repeat split; try done.
  - by rewrite decide_True.
  - by rewrite decide_False.
Qed.

(** What the [switch] leaves in the trace and in the object. *)
Lemma interpret_trace retry f w f' w' tr :
  interpret eng retry f w = Some (f', w', tr) ->
  statuses tr = [] /\ texts tr = [] /\
  guard_run Free tr = Some Free /\
  count_if is_cout tr = (if is_logged (retValue f) then 1 else 0) /\
  count_if is_busy_timeout tr = 0 /\ count_if is_autocommit tr = 0 /\
  count_if is_close tr = reconnects tr /\
  m_database (self w') = default (m_database (self w)) (last (opened tr)) /\
  (reconnects tr = 0 -> w' = w).
Proof.
  unfold interpret, reconnect_once, busy_retry, is_logged.
  destruct (decide (retValue f = SQLITE_BUSY)) as [Hb|Hb].
  - rewrite (bool_decide_eq_true_2 _ Hb). unfold bind at 1. unfold member at 1.
    destruct (decide (m_timeoutMs (self w) = 0%Z)) as [Ht|Ht]; simpl.
    { by intros [= <- <- <-]. }
    destruct retry; [destruct (bool_decide (i f < 10)%Z)|]; simpl;
      try (by intros [= <- <- <-]);
      (destruct (alreadyTriedReconnecting f); simpl; [by intros [= <- <- <-]|]);
      unfold bind, ret; rewrite Reconnect_eq; simpl; by intros [= <- <- <-].
  - rewrite (bool_decide_eq_false_2 _ Hb).
    destruct (decide (retValue f = 0%Z)) as [H0|H0].
    { rewrite (bool_decide_eq_true_2 _ H0). by intros [= <- <- <-]. }
    rewrite (bool_decide_eq_false_2 _ H0).
    destruct (decide (retValue f = SQLITE_IOERR)) as [Hio|Hio].
    + rewrite (bool_decide_eq_true_2 _ Hio).
      destruct (alreadyTriedReconnecting f); simpl; [by intros [= <- <- <-]|].
      unfold bind, ret; rewrite Reconnect_eq; simpl; by intros [= <- <- <-].
    + rewrite (bool_decide_eq_false_2 _ Hio).
      unfold bind at 1. unfold errmsg at 1. unfold bind at 1. unfold emit at 1.
      destruct (alreadyTriedReconnecting f); simpl; [by intros [= <- <- <-]|].
      unfold bind, ret; rewrite Reconnect_eq; simpl; by intros [= <- <- <-].
Qed.


(** One iteration: exactly one submission, of the caller's text, decides
    the status the frame holds afterwards. *)
Lemma body_trace sql retry f w f' w' tr :
  ExecStatement_body eng sql retry f w = Some (f', w', tr) ->
  statuses tr = [retValue f'] /\ texts tr = [sql] /\ submissions tr = 1 /\
  guard_run Free tr = Some Free /\
  count_if is_cout tr = (if is_logged (retValue f') then 1 else 0) /\
  count_if is_busy_timeout tr = 0 /\ count_if is_autocommit tr = 0 /\
  count_if is_close tr = reconnects tr /\
  m_database (self w') = default (m_database (self w)) (last (opened tr)) /\
  (reconnects tr = 0 -> self w' = self w).
Proof.
  intros (f1 & w1 & t1 & t2 & Hs & Hi & ->)%body_inv.
  pose proof (submission_trace _ _ _ _ _ _ Hs)
    as (Hst & Htx & Hop & Hg & Hco & Hbt & Hac & _).
  apply submission_inv in Hs
    as (_ & _ & _ & _ & _ & _ & Hself & _ & _ & Hsub & Hrec & _ & Hcl).
  pose proof (interpret_trace _ _ _ _ _ _ Hi)
    as (Hst' & Htx' & Hg' & Hco' & Hbt' & Hac' & Hcl' & Hdb & Hw).
  apply interpret_inv in Hi as ((Hrv & _ & _ & _ & Hsub' & _) & _).
  unfold submissions, reconnects in *.
  rewrite statuses_app, texts_app, opened_app, guard_run_app, !count_if_app.
  rewrite Hst, Hst', Htx, Htx', Hop, Hg, Hg', Hco, Hco', Hbt, Hbt', Hac, Hac', Hcl, Hcl',
    Hsub, Hsub', Hrec, Hrv, Hdb, Hself.
  repeat split; try done. simpl. intros Hr. by rewrite (Hw Hr).
Qed.


(** The trace of a loop that returns is a sequence of iterations. *)
Lemma loop_trace fuel sql retry f w f' w' tr :
  ExecStatement_loop eng fuel sql retry f w = Some (f', w', tr) ->
  texts tr = replicate (submissions tr) sql /\
  length (statuses tr) = submissions tr /\
  guard_run Free tr = Some Free /\
  count_if is_cout tr = length (List.filter is_logged (statuses tr)) /\
  count_if is_busy_timeout tr = 0 /\ count_if is_autocommit tr = 0 /\
  count_if is_close tr = reconnects tr /\
  m_database (self w') = default (m_database (self w)) (last (opened tr)) /\
  (reconnects tr = 0 -> self w' = self w).
Proof.
  revert fuel f w f' w' tr. apply loop_ind.
  - done.
  - intros f w f1 w1 t1 f2 w2 t2 _ Hb
      (Htx & Hst & Hg & Hco & Hbt & Hac & Hcl & Hdb & Hself).
    apply body_trace in Hb
      as (Hst1 & Htx1 & Hsub1 & Hg1 & Hco1 & Hbt1 & Hac1 & Hcl1 & Hdb1 & Hself1).
    unfold submissions, reconnects in *.
    rewrite statuses_app, texts_app, opened_app, guard_run_app, !count_if_app,
      List.filter_app, !length_app.
    rewrite Htx, Htx1, Hst, Hst1, Hsub1, Hg1, Hg, Hco, Hco1, Hbt, Hbt1, Hac, Hac1,
      Hcl, Hcl1. simpl.
    repeat split; try done.
    + by destruct (is_logged (retValue f1)).
    + rewrite last_app, Hdb, Hdb1. by destruct (last (opened t2)).
    + intros Hr. rewrite Hself, Hself1 by lia. done.
Qed.


(** With a non-zero budget the iterations and the backoffs of a loop are
    bounded by what is left of the budget. *)
Lemma loop_bounds fuel sql retry f w f' w' tr :
  ExecStatement_loop eng fuel sql retry f w = Some (f', w', tr) ->
  m_timeoutMs (self w) ≠ 0%Z ->
  submissions tr <= (if done f then 0 else 1 + budget retry f) /\
  backoffs tr <= (if retry then Z.to_nat (10 - i f) else 0).
Proof.
  revert fuel f w f' w' tr.
  apply (loop_ind eng (fun f w f' w' tr =>
    m_timeoutMs (self w) ≠ 0%Z ->
    submissions tr <= (if done f then 0 else 1 + budget retry f) /\
    backoffs tr <= (if retry then Z.to_nat (10 - i f) else 0))).
  - intros f w -> _. cbv. destruct retry; lia.
  - intros f w f1 w1 t1 f2 w2 t2 Hd Hb IH Ht. rewrite Hd.
    pose proof (body_config _ _ _ _ _ _ _ _ Hb) as (_ & Ht1 & _).
    pose proof (body_progress _ _ _ _ _ _ _ _ Ht Hb) as Hprog.
    destruct IH as [IHs IHb]; [congruence|].
    pose proof (body_trace _ _ _ _ _ _ _ Hb) as (_ & _ & Hsub1 & _).
    apply body_inv in Hb as (f0 & w0 & t0 & t0' & Hs & Hi & ->).
    apply submission_inv in Hs
      as (_ & _ & _ & _ & Hi0 & _ & Hself & _ & _ & _ & _ & Hsl & _).
    apply interpret_inv in Hi as ((_ & _ & _ & _ & _ & _ & _ & _ & Hmono) & Hcase).
    rewrite Hself in Hcase.
    unfold submissions, backoffs in *. rewrite !count_if_app in *. split.
    + destruct Hprog as [Hd1|Hlt]; [rewrite Hd1 in IHs|destruct (done f1)]; lia.
    + rewrite Hsl. destruct retry.
      * destruct Hcase as [(_ & Hc & _ & _ & Hi' & _ & ->)|
                           [(_ & _ & _ & _ & _ & _ & -> & _)|(_ & _ & _ & _ & _ & -> & _)]];
          [|lia..].
        destruct Hc as [?|[_ Hlt]]; [done|]. rewrite decide_False in Hi' by done.
        change (count_if is_backoff [EvSleep 15]) with 1. lia.
      * destruct Hcase as [(_ & Hc & _)|
                           [(_ & _ & _ & _ & _ & _ & -> & _)|(_ & _ & _ & _ & _ & -> & _)]];
          [|lia..].
        by destruct Hc as [?|[? _]].
Qed.





(** The entry frame's status and row count are overwritten before they are
    read. *)
Lemma loop_entry_irrelevant fuel sql retry rv1 rv2 res v1 v2 w :
  ExecStatement_loop eng fuel sql retry (entry_frame rv1 res (Some v1)) w =
  ExecStatement_loop eng fuel sql retry (entry_frame rv2 res (Some v2)) w /\
  ExecStatement_loop eng fuel sql retry (entry_frame rv1 res None) w =
  ExecStatement_loop eng fuel sql retry (entry_frame rv2 res None) w.
Proof.
  destruct fuel as [|fuel]; [done|].
  rewrite !loop_unfold. simpl. unfold ExecStatement_body, bind.
  rewrite !submission_eq. simpl. split; [|done].
  by destruct (decide _).
Qed.


(** An iteration whose submission fails for good, before any reconnect:
    the one reconnect is spent, and the loop goes on iff the open
    succeeded. *)
Lemma body_escalates sql retry f w :
  let r := sqlite3_a3d_exec eng (m_database (self w)) sql (engine w) in
  let op := sqlite3_a3d_open_v2 eng (m_databasePath (self w)) OPEN_FLAGS
              (sqlite3_a3d_close_v2 eng (m_database (self w)) r.2) in
  alreadyTriedReconnecting f = false ->
  r.1.1 ≠ 0%Z ->
  (r.1.1 = SQLITE_BUSY -> m_timeoutMs (self w) ≠ 0%Z /\ retry = false) ->
  exists f' tr,
    ExecStatement_body eng sql retry f w =
    Some (f', {| self := set_database op.1.2 (self w); engine := op.2 |}, tr) /\
    retValue f' = r.1.1 /\ results f' = collect r.1.2 (results f) /\
    done f' = negb (bool_decide (op.1.1 = SQLITE_OK)) /\
    alreadyTriedReconnecting f' = true /\
    submissions tr = 1 /\ reconnects tr = 1 /\ backoffs tr = 0.
Proof.
  intros r op Ha Hne Hbusy.
  destruct (body_total eng sql retry f w) as [[[f1 w1] t1] Hb].
  pose proof (body_trace _ _ _ _ _ _ _ Hb) as (_ & _ & Hsub & _).
  pose proof (body_results _ _ _ _ _ _ _ _ Hb) as Hres.
  apply body_inv in Hb as Hb'. destruct Hb' as (f0 & w0 & t0 & t0' & Hs & Hi & ->).
  apply submission_inv in Hs
    as (Hrv & _ & Ha0 & _ & _ & _ & Hself & Heng & Hdel & _ & Hrec & Hsl & _).
  apply interpret_inv in Hi as ((Hrv' & _ & _ & Hdel' & _) & Hcase).
  rewrite Hself in Hcase. fold r in Hrv, Heng, Hdel.
  rewrite delivered_app, Hdel, Hdel', app_nil_r in Hres.
  destruct Hcase as [(Hb1 & Hc & _)|[(_ & [H0|Ht] & _)|
                     (_ & _ & _ & Ha1 & Hr1 & Hbo1 & _ & ok & w0' & t0'' & pre & Hre & -> & _ & Hd1)]].
  - rewrite Hrv in Hb1. destruct (Hbusy Hb1) as [Ht ->]. by destruct Hc as [?|[? _]].
  - congruence.
  - congruence.
  - rewrite Reconnect_eq in Hre. simpl in Hre. rewrite Hself, Heng in Hre.
    injection Hre as <- <- _. exists f1, (t0 ++ t0'). split; [done|].
    unfold reconnects, backoffs in *. rewrite !count_if_app, Hrec, Hsl, Hr1, Hbo1.
    repeat split; try done. congruence.
Qed.


(** Only whether the budget is zero is ever looked at. *)
Lemma interpret_with_budget t retry f w :
  t ≠ 0%Z -> m_timeoutMs (self w) ≠ 0%Z ->
  interpret eng retry f (with_budget t w) =
  match interpret eng retry f w with
  | Some (f', w', tr) => Some (f', with_budget t w', tr)
  | None => None
  end.
Proof.
  intros Ht Hw.
  unfold interpret, reconnect_once, busy_retry, bind, member, errmsg, emit, ret. simpl.
  destruct (decide (retValue f = SQLITE_BUSY));
    [simpl; rewrite ?(decide_False (P := t = 0%Z)),
       ?(decide_False (P := m_timeoutMs (self w) = 0%Z)) by done;
     destruct retry; [destruct (bool_decide (i f < 10)%Z)|]
    |destruct (decide (retValue f = 0%Z)); [done|];
     destruct (decide (retValue f = SQLITE_IOERR))];
    simpl; try done;
    (destruct (alreadyTriedReconnecting f); simpl; [done|]);
    rewrite !Reconnect_eq; done.
Qed.

Lemma body_with_budget t sql retry f w :
  t ≠ 0%Z -> m_timeoutMs (self w) ≠ 0%Z ->
  ExecStatement_body eng sql retry f (with_budget t w) =
  match ExecStatement_body eng sql retry f w with
  | Some (f', w', tr) => Some (f', with_budget t w', tr)
  | None => None
  end.
Proof.
  intros Ht Hw. unfold ExecStatement_body.
  destruct (submission_total eng sql f w) as [[[f1 w1] t1] Hs].
  pose proof (submission_inv _ _ _ _ _ _ _ Hs) as Hinv. simpl in Hinv.
  destruct Hinv as (_ & _ & _ & _ & _ & _ & Hself & _).
  assert (submission eng sql f (with_budget t w) = Some (f1, with_budget t w1, t1)) as Hs'.
  { rewrite submission_eq in Hs |- *. simpl in *.
    destruct (pnUpdatedRows f); [destruct (decide _)|]; by injection Hs as <- <- <-. }
  rewrite (bind_Some_l _ _ _ _ _ _ Hs), (bind_Some_l _ _ _ _ _ _ Hs').
  rewrite interpret_with_budget by congruence.
  by destruct (interpret eng retry f1 w1) as [[[f2 w2] t2]|].
Qed.

Lemma loop_with_budget t fuel sql retry : forall f w,
  t ≠ 0%Z -> m_timeoutMs (self w) ≠ 0%Z ->
  ExecStatement_loop eng fuel sql retry f (with_budget t w) =
  match ExecStatement_loop eng fuel sql retry f w with
  | Some (f', w', tr) => Some (f', with_budget t w', tr)
  | None => None
  end.
Proof.
  induction fuel as [|fuel IH]; intros f w Ht Hw.
  - simpl. by destruct (done f).
  - destruct (done f) eqn:Hd; [by rewrite !loop_done|].
    destruct (body_total eng sql retry f w) as [[[f1 w1] t1] Hb].
    pose proof (body_with_budget t sql retry f w Ht Hw) as Hb'. rewrite Hb in Hb'.
    rewrite (loop_step _ _ _ _ _ _ _ _ _ Hd Hb), (loop_step _ _ _ _ _ _ _ _ _ Hd Hb').
    apply body_config in Hb as (_ & Ht1 & _).
    rewrite IH by congruence.
    by destruct (ExecStatement_loop eng fuel sql retry f1 w1) as [[[f2 w2] t2]|].
Qed.

(** A method that wraps [ExecStatement] and returns its [bool]. *)
Lemma returned_of fuel sql rv w :
  (let* o := ExecStatement eng fuel sql rv [] true None in ret (returned o)) w =
  match ExecStatement eng fuel sql rv [] true None w with
  | Some (o, w', tr) => Some (returned o, w', tr)
  | None => None
  end.
Proof.
  unfold bind, ret.
  destruct (ExecStatement _ _ _ _ _ _ _ _) as [[[o w'] tr]|]; [|done].
  by rewrite app_nil_r.
Qed.

End Calls.

(** ** Calls on a connection that is not ready *)

(** X1: on an object whose flag is false, [ExecStatement] returns false
    without touching the engine, the guard, the object or any of its output
    parameters, and so do the five transaction methods and
    [DestroyDatabase]. *)
Theorem X1_not_ready_refuses {E} (eng : Engine E) fuel sql rv res retry pn junk w :
  m_isOpened (self w) = false ->
  ExecStatement eng fuel sql rv res retry pn w =
  Some ({| returned := false; out_retValue := rv; out_results := res;
           out_pnUpdatedRows := pn |}, w, []) /\
  Forall (fun method : M E bool => method w = Some (false, w, []))
    [BeginTransaction eng fuel junk; BeginExclusiveTransaction eng fuel junk;
     BeginImmediateTransaction eng fuel; EndTransaction eng fuel;
     RollBackTransaction eng fuel; DestroyDatabase eng fuel].
Proof.
  intros Hr. split; [by apply ExecStatement_not_ready|].
  repeat constructor;
    unfold BeginTransaction, BeginExclusiveTransaction, ExecStatement_text,
      BeginImmediateTransaction, EndTransaction, RollBackTransaction, DestroyDatabase;
    unfold bind; rewrite ?ExecStatement_not_ready by done; try done.
  unfold member. rewrite Hr. simpl. by rewrite orb_true_r.
Qed.

Lemma X1_witness :
  let w : World Scripted.Script :=
    {| self := {| m_isOpened := false; m_timeoutMs := 3000;
                  m_databasePath := "a3d.db"; m_database := 7%Z |};
       engine := Scripted.make [] [] 1 |} in
  ExecStatement Scripted.api 0 "SELECT 1" 42 [["kept"]] true (Some 9%Z) w =
  Some ({| returned := false; out_retValue := 42; out_results := [["kept"]];
           out_pnUpdatedRows := Some 9%Z |}, w, []) /\
  DestroyDatabase Scripted.api 0 w = Some (false, w, []).
Proof.
  intros w.
  destruct (X1_not_ready_refuses Scripted.api 0 "SELECT 1" 42 [["kept"]] true (Some 9%Z) 0 w
              eq_refl) as [Hexec Hall].
  split; [exact Hexec|].
  exact (Forall_lookup_1 _ _ 5 _ Hall eq_refl).
Defined.

(** ** What a call does to the object and to the engine *)

(** X2: whatever the engine answers, a call that returns has reconnected at
    most once; it leaves the flag, the budget and the path as they were; the
    handle it leaves is the one stored by its last open, and the whole object
    is unchanged if it did not reconnect. *)
Theorem X2_keeps_object {E} (eng : Engine E) fuel sql rv res retry pn w o w' tr :
  ExecStatement eng fuel sql rv res retry pn w = Some (o, w', tr) ->
  reconnects tr <= 1 /\
  m_isOpened (self w') = m_isOpened (self w) /\
  m_timeoutMs (self w') = m_timeoutMs (self w) /\
  m_databasePath (self w') = m_databasePath (self w) /\
  m_database (self w') = default (m_database (self w)) (last (opened tr)) /\
  (reconnects tr = 0 -> self w' = self w).
Proof.
  intros Hrun. split; [by eapply ExecStatement_reconnects_le_1|].
  apply ExecStatement_inv in Hrun as [(_ & _ & -> & ->)|(_ & f & Hl & _)]; [done|].
  pose proof (loop_config _ _ _ _ _ _ _ _ _ Hl) as (Ho & Ht & Hp).
  apply loop_trace in Hl as (_ & _ & _ & _ & _ & _ & _ & Hdb & Hself). done.
Qed.

Lemma X2_witness :
  let run :=
    ExecStatement Scripted.api 2 "SELECT 1" 0 [] true None
      (connected 3000 (Scripted.make [(SQLITE_IOERR, [])] [(SQLITE_OK, 7%Z)] 1)) in
  exists o w' tr,
    run = Some (o, w', tr) /\
    reconnects tr <= 1 /\
    m_isOpened (self w') = true /\ m_timeoutMs (self w') = 3000%Z /\
    m_databasePath (self w') = "a3d.db" /\ m_database (self w') = 7%Z.
Proof.
  intros run. eexists _, _, _. split; [vm_compute; reflexivity|].
  assert (Hrun : run = Some _) by (vm_compute; reflexivity).
  destruct (X2_keeps_object Scripted.api 2 "SELECT 1" 0 [] true None
              _ _ _ _ Hrun) as (H1 & H2 & H3 & H4 & H5 & _).
  exact (conj H1 (conj H2 (conj H3 (conj H4 H5)))).
Defined.

(** X3: the only engine calls a call makes are submissions, reads of the
    change counter and of the error text, and the close and open of a
    reconnect: it never installs the engine's busy timeout (which
    [InitDatabase] sets to 2000 ms on the first handle, so a handle opened by
    a reconnect is left without one), never queries the autocommit state, and
    closes exactly as many handles as it opens. *)
Theorem X3_engine_calls {E} (eng : Engine E) fuel sql rv res retry pn w o w' tr :
  ExecStatement eng fuel sql rv res retry pn w = Some (o, w', tr) ->
  count_if is_busy_timeout tr = 0 /\ count_if is_autocommit tr = 0 /\
  count_if is_close tr = reconnects tr.
Proof.
  intros [(_ & _ & _ & ->)|(_ & f & Hl & _)]%ExecStatement_inv; [done|].
  apply loop_trace in Hl as (_ & _ & _ & _ & Hbt & Hac & Hcl & _). done.
Qed.

Lemma X3_witness :
  let run :=
    ExecStatement Scripted.api 2 "SELECT 1" 0 [] true None
      (connected 3000 (Scripted.make [(SQLITE_IOERR, [])] [(SQLITE_OK, 7%Z)] 1)) in
  exists o w' tr,
    run = Some (o, w', tr) /\
    count_if is_busy_timeout tr = 0 /\ count_if is_autocommit tr = 0 /\
    count_if is_close tr = 1.
Proof.
  intros run. eexists _, _, _. split; [vm_compute; reflexivity|].
  assert (Hrun : run = Some _) by (vm_compute; reflexivity).
  exact (X3_engine_calls Scripted.api 2 "SELECT 1" 0 [] true None
           _ _ _ _ Hrun).
Defined.

(** X4: every submission of a call carries the caller's statement text,
    unchanged, however many times it is retried. *)
Theorem X4_submits_only_its_text {E} (eng : Engine E)
    fuel sql rv res retry pn w o w' tr :
  ExecStatement eng fuel sql rv res retry pn w = Some (o, w', tr) ->
  texts tr = replicate (submissions tr) sql.
Proof.
  intros [(_ & _ & _ & ->)|(_ & f & Hl & _)]%ExecStatement_inv; [done|].
  apply loop_trace in Hl as (Htx & _). done.
Qed.

Lemma X4_witness :
  let run :=
    ExecStatement Scripted.api 3 "UPDATE t SET x = 1" 0 [] true None
      (connected 3000
         (Scripted.make [(SQLITE_BUSY, []); (SQLITE_IOERR, [])] [(SQLITE_OK, 7%Z)] 1)) in
  exists o w' tr,
    run = Some (o, w', tr) /\
    texts tr = ["UPDATE t SET x = 1"; "UPDATE t SET x = 1"; "UPDATE t SET x = 1"].
Proof.
  intros run. eexists _, _, _. split; [vm_compute; reflexivity|].
  assert (Hrun : run = Some _) by (vm_compute; reflexivity).
  exact (X4_submits_only_its_text Scripted.api 3 "UPDATE t SET x = 1" 0 []
           true None _ _ _ _ Hrun).
Defined.

(** X5: a call that returns leaves the guard as it found it, and holds it
    in the right way at every action: each submission is made under a hold
    taken just before and released just after, the change counter is read and
    a handle closed or opened only under an exclusive hold, and every sleep
    is taken with the guard released. *)
Theorem X5_guard_balanced {E} (eng : Engine E)
    fuel sql rv res retry pn w o w' tr :
  ExecStatement eng fuel sql rv res retry pn w = Some (o, w', tr) ->
  guard_run Free tr = Some Free.
Proof.
  intros [(_ & _ & _ & ->)|(_ & f & Hl & _)]%ExecStatement_inv; [done|].
  apply loop_trace in Hl as (_ & _ & Hg & _). done.
Qed.

Lemma X5_witness :
  let run :=
    ExecStatement Scripted.api 3 "UPDATE t SET x = 1" 0 [] true (Some 0%Z)
      (connected 3000
         (Scripted.make [(SQLITE_BUSY, []); (SQLITE_IOERR, [])] [(SQLITE_OK, 7%Z)] 1)) in
  exists o w' tr, run = Some (o, w', tr) /\ guard_run Free tr = Some Free.
Proof.
  intros run. eexists _, _, _. split; [vm_compute; reflexivity|].
  assert (Hrun : run = Some _) by (vm_compute; reflexivity).
  exact (X5_guard_balanced Scripted.api 3 "UPDATE t SET x = 1" 0 []
           true (Some 0%Z) _ _ _ _ Hrun).
Defined.



(** ** What a call hands back *)





(** X9: what a call on a ready connection does, returns and hands back
    does not depend on the status and the row count its parameters hold on
    entry: both are overwritten before they are read. *)
Theorem X9_ignores_incoming {E} (eng : Engine E)
    fuel sql rv1 rv2 res retry v1 v2 w :
  m_isOpened (self w) = true ->
  ExecStatement eng fuel sql rv1 res retry (Some v1) w =
  ExecStatement eng fuel sql rv2 res retry (Some v2) w /\
  ExecStatement eng fuel sql rv1 res retry None w =
  ExecStatement eng fuel sql rv2 res retry None w.
Proof.
  intros Hr. rewrite !ExecStatement_ready by done.
  destruct (loop_entry_irrelevant eng fuel sql retry rv1 rv2 res v1 v2 w) as [-> ->].
  done.
Qed.

Lemma X9_witness :
  let w := connected 3000 (Scripted.make [(SQLITE_BUSY, []); (1%Z, [])] [] 1) in
  ExecStatement Scripted.api 5 "SELECT 1" 0 [] true (Some 0%Z) w =
  ExecStatement Scripted.api 5 "SELECT 1" (-77) [] true (Some 123%Z) w.
Proof.
  intros w.
  exact (proj1 (X9_ignores_incoming Scripted.api 5 "SELECT 1" 0 (-77) []
                  true 0 123 w eq_refl)).
Defined.

(** ** How long a call takes *)

(** X10: with a non-zero budget every call returns, after at most twelve
    submissions and ten backoffs of 15 ms when retries are enabled and at
    most two submissions and no backoff when they are not, whatever the
    engine answers. *)
Theorem X10_bounded {E} (eng : Engine E) fuel sql rv res retry pn w :
  m_timeoutMs (self w) ≠ 0%Z -> 12 <= fuel ->
  exists o w' tr,
    ExecStatement eng fuel sql rv res retry pn w = Some (o, w', tr) /\
    submissions tr <= (if retry then 12 else 2) /\
    backoffs tr <= (if retry then 10 else 0).
Proof.
  intros Ht Hfuel.
  destruct (ExecStatement_terminates eng fuel sql rv res retry pn w Ht Hfuel)
    as [[[o w'] tr] Hrun].
  exists o, w', tr. split; [done|].
  apply ExecStatement_inv in Hrun as [(_ & _ & _ & ->)|(_ & f & Hl & _)].
  { cbv. destruct retry; lia. }
  apply loop_bounds in Hl as [Hs Hb]; [|done].
  unfold budget in Hs. simpl in *. destruct retry; lia.
Qed.

Lemma X10_witness :
  exists o w' tr,
    ExecStatement (Busy.api (SQLITE_OK, 2%Z)) 12 "SELECT 1" 0 [] true None
      (connected 3000 0) = Some (o, w', tr) /\
    submissions tr <= 12 /\ backoffs tr <= 10.
Proof.
  apply (X10_bounded (Busy.api (SQLITE_OK, 2%Z)) 12 "SELECT 1" 0 [] true None
           (connected 3000 0)).
  - simpl. lia.
  - lia.
Defined.







(** X14: a failure the reconnect cannot heal.  When the first submission on
    a ready connection is answered with an error (or with BUSY while retries
    are off and the budget is not 0) and the reopen fails, the call returns
    false after that one submission, with the status of the submission, not
    of the open; the object keeps whatever handle the failed open stored and
    its flag still says ready. *)
Theorem X14_gives_up_when_reopen_fails {E} (eng : Engine E)
    fuel sql rv res retry pn w :
  let r1 := sqlite3_a3d_exec eng (m_database (self w)) sql (engine w) in
  let op := sqlite3_a3d_open_v2 eng (m_databasePath (self w)) OPEN_FLAGS
              (sqlite3_a3d_close_v2 eng (m_database (self w)) r1.2) in
  m_isOpened (self w) = true ->
  r1.1.1 ≠ 0%Z ->
  (r1.1.1 = SQLITE_BUSY -> m_timeoutMs (self w) ≠ 0%Z /\ retry = false) ->
  op.1.1 ≠ SQLITE_OK ->
  1 <= fuel ->
  exists o w' tr,
    ExecStatement eng fuel sql rv res retry pn w = Some (o, w', tr) /\
    w' = {| self := set_database op.1.2 (self w); engine := op.2 |} /\
    m_isOpened (self w') = true /\
    returned o = false /\ out_retValue o = r1.1.1 /\
    out_results o = collect r1.1.2 res /\
    submissions tr = 1 /\ reconnects tr = 1 /\ backoffs tr = 0.
Proof.
  intros r1 op Hr Hne Hb1 Hop Hfuel. rewrite ExecStatement_ready by done.
  destruct fuel as [|fuel]; [lia|].
  destruct (body_escalates eng sql retry (entry_frame rv res pn) w eq_refl Hne Hb1)
    as (f1 & t1 & Hbody1 & Hrv1 & Hres1 & Hd1 & Ha1 & Hs1 & Hrec1 & Hbo1).
  fold r1 in Hbody1, Hrv1, Hres1. fold op in Hbody1, Hd1.
  rewrite bool_decide_eq_false_2 in Hd1 by done. simpl in Hd1.
  rewrite (loop_step eng _ sql retry (entry_frame rv res pn) w _ _ _ eq_refl Hbody1), loop_done by done.
  eexists _, _, _. split; [done|]. simpl.
  rewrite app_nil_r, Hrv1, bool_decide_eq_false_2 by done. done.
Qed.

Lemma X14_witness :
  exists o w' tr,
    ExecStatement Scripted.api 1 "SELECT 1" 0 [] true None
      (connected 3000 (Scripted.make [(SQLITE_IOERR, [])] [(14%Z, nullptr)] 1))
    = Some (o, w', tr) /\
    w' = {| self := {| m_isOpened := true; m_timeoutMs := 3000;
                    m_databasePath := "a3d.db"; m_database := nullptr |};
         engine := Scripted.make [] [] 1 |} /\
    m_isOpened (self w') = true /\
    returned o = false /\ out_retValue o = SQLITE_IOERR /\
    out_results o = [] /\
    submissions tr = 1 /\ reconnects tr = 1 /\ backoffs tr = 0.
Proof.
  apply (X14_gives_up_when_reopen_fails Scripted.api 1 "SELECT 1" 0 [] true None
           (connected 3000 (Scripted.make [(SQLITE_IOERR, [])] [(14%Z, nullptr)] 1))).
  - reflexivity.
  - simpl. discriminate.
  - simpl. discriminate.
  - simpl. discriminate.
  - lia.
Defined.

(** X15: of the budget only whether it is 0 is ever used.  Two calls that
    differ in nothing but the budget, both budgets non-zero, do the same and
    return the same; in particular the number of retries is ten whatever the
    budget says. *)
Theorem X15_budget_magnitude {E} (eng : Engine E)
    t fuel sql rv res retry pn w :
  t ≠ 0%Z -> m_timeoutMs (self w) ≠ 0%Z ->
  ExecStatement eng fuel sql rv res retry pn (with_budget t w) =
  match ExecStatement eng fuel sql rv res retry pn w with
  | Some (o, w', tr) => Some (o, with_budget t w', tr)
  | None => None
  end.
Proof.
  intros Ht Hw. destruct (m_isOpened (self w)) eqn:Hr.
  - rewrite !ExecStatement_ready by done. rewrite loop_with_budget by done.
    by destruct (ExecStatement_loop _ _ _ _ _ _) as [[[f w'] tr]|].
  - rewrite !ExecStatement_not_ready by done. done.
Qed.

Lemma X15_witness :
  ExecStatement (Busy.api (SQLITE_OK, 2%Z)) 12 "SELECT 1" 0 [] true None
    (with_budget 1 (connected 3000 0)) =
  match ExecStatement (Busy.api (SQLITE_OK, 2%Z)) 12 "SELECT 1" 0 [] true None
          (connected 3000 0) with
  | Some (o, w', tr) => Some (o, with_budget 1 w', tr)
  | None => None
  end.
Proof.
  apply (X15_budget_magnitude (Busy.api (SQLITE_OK, 2%Z)) 1 12 "SELECT 1" 0 []
           true None (connected 3000 0)).
  - lia.
  - simpl. lia.
Defined.

(** ** The transaction methods *)



(** X17: the uninitialised status that the one-argument [ExecStatement],
    and with it [BeginTransaction] and [BeginExclusiveTransaction], passes
    down is never read: whatever it holds, the method does and returns the
    same. *)
Theorem X17_uninitialised_status_never_read {E} (eng : Engine E) fuel junk1 junk2 sql w :
  ExecStatement_text eng fuel junk1 sql w = ExecStatement_text eng fuel junk2 sql w /\
  BeginTransaction eng fuel junk1 w = BeginTransaction eng fuel junk2 w /\
  BeginExclusiveTransaction eng fuel junk1 w = BeginExclusiveTransaction eng fuel junk2 w.
Proof.
  assert (forall sql, ExecStatement_text eng fuel junk1 sql w =
                      ExecStatement_text eng fuel junk2 sql w) as Hall.
  { intros sql'. unfold ExecStatement_text. rewrite !returned_of.
    destruct (m_isOpened (self w)) eqn:Hr.
    - rewrite !ExecStatement_ready by done.
      by destruct (loop_entry_irrelevant eng fuel sql' true junk1 junk2 [] 0 0 w) as [_ ->].
    - by rewrite !ExecStatement_not_ready. }
  split; [apply Hall|]. split; apply Hall.
Qed.

(** ** The row callback in closed form *)

(** X18: one invocation of the row callback cuts or pads the container to
    the reported column count and appends one cell to each entry that is
    left: entries beyond the count are dropped with what they held, missing
    ones start empty, and the callback always tells the engine to carry
    on. *)
Theorem X18_getResultsCallBack_closed_form res count data :
  getResultsCallBack res count data =
  (0%Z, imap (fun j column => column ++ [cell (default None (data !! j))])
             (resize count [] res)) /\
  (count <= length res ->
   (getResultsCallBack res count data).2 =
   imap (fun j column => column ++ [cell (default None (data !! j))]) (take count res)) /\
  (length res <= count ->
   (getResultsCallBack res count data).2 =
   imap (fun j column => column ++ [cell (default None (data !! j))])
        (res ++ replicate (count - length res) [])).
Proof.
  assert (getResultsCallBack res count data =
          (0%Z, imap (fun j column => column ++ [cell (default None (data !! j))])
                     (resize count [] res))) as Heq.
  { rewrite (surjective_pairing (getResultsCallBack res count data)).
    apply pair_equal_spec. split; [done|]. apply list_eq. intros j. rewrite list_lookup_imap.
    destruct (decide (j < count)) as [Hj|Hj].
    - rewrite getResultsCallBack_lookup by done.
      destruct (decide (j < length res)) as [Hl|Hl].
      + rewrite lookup_resize by done.
        destruct (lookup_lt_is_Some_2 res j Hl) as [column ->]. done.
      + rewrite lookup_resize_new by lia.
        rewrite (lookup_ge_None_2 res j) by lia. done.
    - rewrite (lookup_ge_None_2 (getResultsCallBack res count data).2 j)
        by (rewrite getResultsCallBack_length; lia).
      rewrite (lookup_ge_None_2 (resize count [] res) j)
        by (rewrite length_resize; lia).
      done. }
  split; [done|]. rewrite Heq. simpl. split; intros Hlen.
  - by rewrite resize_le.
  - by rewrite resize_ge.
Qed.

Lemma X18_witness :
  (getResultsCallBack [["a1"]; ["b1"]; ["c1"]] 2 [Some "a2"; None]).2 =
  [["a1"; "a2"]; ["b1"; EmptyString]].
Proof.
  refine (proj1 (proj2 (X18_getResultsCallBack_closed_form
                          [["a1"]; ["b1"]; ["c1"]] 2 [Some "a2"; None])) _).
  simpl. lia.
Defined.

(** ** Construction *)

(** X19: what the one-argument constructor leaves.  It opens the path once
    with the read-write, create and full-mutex flags; the object is ready
    exactly when the engine answered OK, and only then is the engine's busy
    timeout set, to 2000 ms; the retry budget is 3000, or 30000 when built
    for Linux; the handle is whatever the open stored, also when it
    failed. *)
Theorem X19_SqliteWrapper_new_outcome {E} (eng : Engine E) LINUX databasePath e :
  let r := sqlite3_a3d_open_v2 eng databasePath 65542 e in
  let ok := bool_decide (r.1.1 = SQLITE_OK) in
  SqliteWrapper_new eng LINUX databasePath e =
  Some (ok,
        {| self := {| m_isOpened := ok;
                      m_timeoutMs := if LINUX then 30000 else 3000;
                      m_databasePath := databasePath; m_database := r.1.2 |};
           engine := if ok then sqlite3_a3d_busy_timeout eng r.1.2 2000 r.2 else r.2 |},
        EvOpen databasePath 65542 r.1.1 r.1.2 ::
        (if ok then [EvBusyTimeout r.1.2 2000] else [])).
Proof.
  intros r ok. subst r ok.
  unfold SqliteWrapper_new, InitDatabase, SetTimeout, bind, member, assign, ret,
    open_database, busy_timeout.
  destruct LINUX; simpl;
    (destruct (decide (SQLITE_OK ≠ _)) as [Hne|Heq]; simpl;
     [rewrite bool_decide_eq_false_2 by done|
      apply dec_stable in Heq; rewrite bool_decide_eq_true_2 by done]; done).
Qed.

(** X20: the two-argument constructor takes the budget as an [int] and
    stores it as an [unsigned int].  For every [int] the stored budget is 0,
    the value under which a locked database is waited for without end,
    exactly when 0 was passed; a negative argument is stored as a budget of
    at least 2^31 and so behaves like any other non-zero one. *)
Theorem X20_SqliteWrapper_new_timeout_budget {E} (eng : Engine E) databasePath timeoutMs e :
  (- 2 ^ 31 <= timeoutMs < 2 ^ 31)%Z ->
  exists ok w tr,
    SqliteWrapper_new_timeout eng databasePath timeoutMs e = Some (ok, w, tr) /\
    ok = m_isOpened (self w) /\
    m_timeoutMs (self w) = (if decide (timeoutMs < 0)%Z then timeoutMs + 2 ^ 32
                            else timeoutMs)%Z /\
    (m_timeoutMs (self w) = 0%Z <-> timeoutMs = 0%Z) /\
    (timeoutMs < 0 -> 2 ^ 31 <= m_timeoutMs (self w))%Z.
Proof.
  intros Hrange.
  assert (to_unsigned timeoutMs =
          (if decide (timeoutMs < 0)%Z then timeoutMs + 2 ^ 32 else timeoutMs)%Z) as Hu.
  { unfold to_unsigned. destruct (decide _).
    - rewrite <- (Z.mod_small (timeoutMs + 2 ^ 32) (2 ^ 32)) by lia.
      rewrite <- (Z_mod_plus_full timeoutMs 1 (2 ^ 32)). f_equal; lia.
    - apply Z.mod_small. lia. }
  unfold SqliteWrapper_new_timeout, InitDatabase, bind, member, assign, ret,
    open_database, busy_timeout. simpl.
  destruct (decide (SQLITE_OK ≠ _)) as [Hne|Heq]; simpl;
    eexists _, _, _; (split; [done|]); simpl; rewrite Hu;
    (split; [done|]); (split; [done|]); destruct (decide _); split; lia.
Qed.

Lemma X20_witness :
  exists ok w tr,
    SqliteWrapper_new_timeout Scripted.api "a3d.db" (-1) (Scripted.make [] [] 1)
    = Some (ok, w, tr) /\
    ok = m_isOpened (self w) /\
    m_timeoutMs (self w) = 4294967295%Z.
Proof.
  destruct (X20_SqliteWrapper_new_timeout_budget Scripted.api "a3d.db" (-1)
              (Scripted.make [] [] 1))
    as (ok & w & tr & Hrun & Hok & Ht & _).
  - lia.
  - exists ok, w, tr. split; [exact Hrun|]. split; [exact Hok|exact Ht].
Defined.

(** ** Closing *)

(** X21: [DestroyDatabase] returns true exactly when the handle is not null
    and the flag is set.  When it returns false it has done nothing.  When it
    returns true the flag is cleared and the handle reset, the budget and the
    path are as before, the last thing it did was to close a handle, with
    the guard not held, and from then on a second [DestroyDatabase] (the
    destructor's, say) and every [ExecStatement] return false without
    touching the engine. *)
Theorem X21_DestroyDatabase_result {E} (eng : Engine E) fuel w ok w' tr :
  DestroyDatabase eng fuel w = Some (ok, w', tr) ->
  ok = bool_decide (m_database (self w) ≠ nullptr) && m_isOpened (self w) /\
  (ok = false -> w' = w /\ tr = []) /\
  (ok = true ->
   m_isOpened (self w') = false /\ m_database (self w') = nullptr /\
   m_timeoutMs (self w') = m_timeoutMs (self w) /\
   m_databasePath (self w') = m_databasePath (self w) /\
   (exists pre h, tr = pre ++ [EvClose h] /\ guard_run Free pre = Some Free) /\
   (forall fuel', DestroyDatabase eng fuel' w' = Some (false, w', [])) /\
   (forall fuel' sql rv res retry pn,
      ExecStatement eng fuel' sql rv res retry pn w' =
      Some ({| returned := false; out_retValue := rv; out_results := res;
               out_pnUpdatedRows := pn |}, w', []))).
Proof.
  intros Hrun.
  destruct (decide (m_database (self w) = nullptr)) as [Hdb|Hdb].
  { unfold DestroyDatabase, bind, member, ret in Hrun.
    rewrite bool_decide_eq_true_2 in Hrun by done. simpl in Hrun.
    injection Hrun as <- <- <-. rewrite bool_decide_eq_false_2 by tauto. done. }
  destruct (m_isOpened (self w)) eqn:Hop.
  2: { unfold DestroyDatabase, bind, member, ret in Hrun. rewrite Hop in Hrun.
       rewrite orb_true_r in Hrun. simpl in Hrun. injection Hrun as <- <- <-.
       rewrite andb_false_r. done. }
  rewrite bool_decide_eq_true_2 by done. simpl.
  assert (forall w1 : World E,
    m_timeoutMs (self w1) = m_timeoutMs (self w) ->
    m_databasePath (self w1) = m_databasePath (self w) ->
    m_isOpened (self (closed eng w1)) = false /\
    m_database (self (closed eng w1)) = nullptr /\
    m_timeoutMs (self (closed eng w1)) = m_timeoutMs (self w) /\
    m_databasePath (self (closed eng w1)) = m_databasePath (self w) /\
    (forall fuel', DestroyDatabase eng fuel' (closed eng w1)
                   = Some (false, closed eng w1, [])) /\
    (forall fuel' sql rv res retry pn,
       ExecStatement eng fuel' sql rv res retry pn (closed eng w1) =
       Some ({| returned := false; out_retValue := rv; out_results := res;
                out_pnUpdatedRows := pn |}, closed eng w1, []))) as Hclosed.
  { intros w1 Ht Hp. repeat split; try done;
      intros; by apply ExecStatement_not_ready. }
  rewrite DestroyDatabase_open in Hrun by done. simpl in Hrun.
  destruct (decide _) as [Hin|Hout].
  - unfold RollBackTransaction in Hrun. rewrite returned_of in Hrun.
    destruct (ExecStatement _ _ _ _ _ _ _ _) as [[[o w1] t1]|] eqn:Hroll; [|done].
    injection Hrun as <- <- <-. split; [done|]. split; [done|]. intros _.
    pose proof (ExecStatement_inv _ _ _ _ _ _ _ _ _ _ _ Hroll)
      as [(? & _)|(_ & f & Hl & _)]; [congruence|].
    pose proof (loop_config _ _ _ _ _ _ _ _ _ Hl) as (_ & Ht & Hp).
    apply loop_trace in Hl as (_ & _ & Hg & _).
    destruct (Hclosed w1 Ht Hp) as (H1 & H2 & H3 & H4 & H5 & H6).
    repeat split; try done.
    eexists (EvAutocommit _ _ :: t1 ++ _), _. split.
    + simpl. rewrite <- (assoc_L (++)). done.
    + simpl. rewrite guard_run_app, Hg. by destruct (returned o).
  - injection Hrun as <- <- <-. split; [done|]. split; [done|]. intros _.
    destruct (Hclosed w eq_refl eq_refl) as (H1 & H2 & H3 & H4 & H5 & H6).
    repeat split; try done. by eexists [_], _.
Qed.

Lemma X21_witness :
  let run :=
    DestroyDatabase Scripted.api 3
      (connected 3000 (Scripted.make [(SQLITE_OK, [])] [] 0)) in
  exists w' tr,
    run = Some (true, w', tr) /\
    m_isOpened (self w') = false /\ m_database (self w') = nullptr /\
    DestroyDatabase Scripted.api 0 w' = Some (false, w', []).
Proof.
  intros run. eexists _, _. split; [vm_compute; reflexivity|].
  assert (Hrun : run = Some _) by (vm_compute; reflexivity).
  destruct (X21_DestroyDatabase_result Scripted.api 3 _ _ _ _ Hrun)
    as (_ & _ & Htrue).
  destruct (Htrue eq_refl) as (H1 & H2 & _ & _ & _ & H6 & _).
  exact (conj H1 (conj H2 (H6 0))).
Defined.

(** X22: outside a transaction (the engine reports autocommit on)
    destroying an open connection submits nothing: it asks for the
    autocommit state, closes the handle and returns true, whatever the budget
    and however busy the engine is. *)
Theorem X22_DestroyDatabase_outside_transaction {E} (eng : Engine E) fuel w :
  m_database (self w) ≠ nullptr ->
  m_isOpened (self w) = true ->
  sqlite3_a3d_get_autocommit eng (m_database (self w)) (engine w) ≠ 0%Z ->
  exists tr,
    DestroyDatabase eng fuel w = Some (true, closed eng w, tr) /\
    tr = [EvAutocommit (m_database (self w))
            (sqlite3_a3d_get_autocommit eng (m_database (self w)) (engine w));
          EvClose (m_database (self w))] /\
    submissions tr = 0.
Proof.
  intros Hdb Hop Hauto. rewrite DestroyDatabase_open by done. simpl.
  rewrite decide_False by done. eexists. done.
Qed.

Lemma X22_witness :
  exists tr,
    DestroyDatabase (Busy.api (SQLITE_OK, 2%Z)) 0 (connected 0 0)
    = Some (true, closed (Busy.api (SQLITE_OK, 2%Z)) (connected 0 0), tr) /\
    tr = [EvAutocommit 1 1; EvClose 1] /\ submissions tr = 0.
Proof.
  apply (X22_DestroyDatabase_outside_transaction (Busy.api (SQLITE_OK, 2%Z)) 0 (connected 0 0)).
  - simpl. discriminate.
  - reflexivity.
  - simpl. discriminate.
Defined.

(** X23: inside a transaction, with the budget at 0 and an engine that
    answers BUSY to every submission, destroying an open connection never
    returns: the rollback it starts with backs off for ever, and the handle
    is never closed.  The destructor inherits this. *)
Theorem X23_DestroyDatabase_never_returns {E} (eng : Engine E) fuel w :
  always_busy eng ->
  m_database (self w) ≠ nullptr ->
  m_isOpened (self w) = true ->
  m_timeoutMs (self w) = 0%Z ->
  sqlite3_a3d_get_autocommit eng (m_database (self w)) (engine w) = 0%Z ->
  DestroyDatabase eng fuel w = None /\ destructor eng fuel w = None.
Proof.
  intros Hbusy Hdb Hop Ht Hauto.
  assert (DestroyDatabase eng fuel w = None) as Hnone.
  { rewrite DestroyDatabase_open by done. simpl. rewrite decide_True by done.
    unfold RollBackTransaction. rewrite returned_of.
    rewrite (ExecStatement_unbounded_busy eng fuel fuel); try done.
    by apply always_busy_streak. }
  split; [done|]. unfold destructor, bind. by rewrite Hnone.
Qed.

Lemma X23_witness :
  DestroyDatabase (Steady.api SQLITE_BUSY (SQLITE_OK, 2%Z)) 1000 (connected 0 0) = None /\
  destructor (Steady.api SQLITE_BUSY (SQLITE_OK, 2%Z)) 1000 (connected 0 0) = None.
Proof.
  apply (X23_DestroyDatabase_never_returns (Steady.api SQLITE_BUSY (SQLITE_OK, 2%Z)) 1000
           (connected 0 0)).
  - intros h sql e. reflexivity.
  - simpl. discriminate.
  - reflexivity.
  - reflexivity.
  - reflexivity.
Defined.

(** ** Calls running together *)

Section Progress.

Context {E : Type} (eng : Engine E).

Implicit Types (p : Thread -> bool) (ths : list Thread) (c : Config E).

Lemma switch_total retry f w : is_Some (switch eng retry f w).
Proof.
  rewrite <- not_eq_None_Some. intros Hnone.
  pose proof (interpret_switch eng retry f w) as Heq. rewrite Hnone in Heq.
  destruct (interpret_total eng retry f w) as [r Hr]. congruence.
Qed.

Lemma tally_pos p ths :
  1 <= tally p ths -> exists t th, ths !! t = Some th /\ p th = true.
Proof.
  induction ths as [|th ths IH]; [cbv; lia|].
  rewrite tally_cons. destruct (p th) eqn:Hp.
  - intros _. by exists 0, th.
  - intros Hle. destruct IH as (t & th' & Hl & Hp'); [lia|]. by exists (S t), th'.
Qed.

(** A thread that holds the guard is never made to wait. *)
Lemma thread_step_holder th m w :
  holds_exclusive th = true \/ holds_shared th = true ->
  is_Some (thread_step eng th m w).
Proof.
  unfold holds_exclusive, holds_shared, thread_step.
  destruct (pc th) eqn:Hpc; intros [Hh|Hh]; try done.
  all: try (unfold submit, bind, exec, ret; simpl;
            destruct (pnUpdatedRows (frame th)); [destruct (decide _)|]; done).
  all: try (destruct (pnUpdatedRows (frame th)); done).
Qed.

(** With the guard free every call that has not returned can go on. *)
Lemma thread_step_free th m w :
  exclusive m = false -> sharers m = 0 -> running th = true ->
  is_Some (thread_step eng th m w).
Proof.
  intros Hx Hs. unfold running, thread_step, lock, lock_shared.
  rewrite Hx, Hs. simpl.
  destruct (pc th) eqn:Hpc; intros Hrun; try done.
  - by destruct (m_isOpened (self w)).
  - by destruct (pnUpdatedRows (frame th)).
  - unfold submit, bind, exec, ret; simpl.
    destruct (pnUpdatedRows (frame th)); [destruct (decide _)|]; done.
  - by destruct (pnUpdatedRows (frame th)).
  - destruct (switch_total (retry th) (frame th) w) as [[[[f' b] w'] tr] ->].
    by destruct b.
Qed.

Lemma step_enabled c t th :
  threads c !! t = Some th ->
  is_Some (thread_step eng th (guard c) (shared c)) ->
  is_Some (step eng c (Run t)).
Proof.
  intros Hl [[[[th' m'] w'] tr] Hs]. unfold step. rewrite Hl, Hs. done.
Qed.

Lemma reachable_guard_invariant (w : World E) ths sched :
  Forall (fun th => pc th = AtEntry) ths ->
  guard_invariant (guard (run eng sched (boot w ths)))
                  (threads (run eng sched (boot w ths))).
Proof. intros Hths. apply run_guard_invariant. by apply boot_guard_invariant. Qed.

End Progress.

(** X24: calls of [ExecStatement] running together on one object never
    deadlock.  In every state they can reach, whatever the schedule and the
    engine, as long as some call has not returned some call can take its next
    step: a call that holds the guard is never made to wait, and a call waits
    for the guard only while another one holds it. *)
Theorem X24_calls_never_deadlock {E} (eng : Engine E) (w : World E) ths sched :
  Forall (fun th => pc th = AtEntry) ths ->
  let c := run eng sched (boot w ths) in
  (exists t th, threads c !! t = Some th /\ running th = true) ->
  exists t c', step eng c (Run t) = Some c'.
Proof.
  intros Hths c (t & th & Hl & Hrun).
  pose proof (reachable_guard_invariant eng w ths sched Hths) as (Hsh & Hex & Hboth).
  fold c in Hsh, Hex, Hboth.
  assert (exists t', is_Some (step eng c (Run t'))) as (t' & c' & Hstep);
    [|by exists t', c'].
  destruct (exclusive (guard c)) eqn:Hx.
  - destruct (tally_pos holds_exclusive (threads c)) as (a & tha & Ha & Hh); [lia|].
    exists a. eapply step_enabled; [done|]. apply thread_step_holder. by left.
  - destruct (decide (sharers (guard c) = 0)) as [Hs|Hs].
    + exists t. eapply step_enabled; [done|]. by apply thread_step_free.
    + destruct (tally_pos holds_shared (threads c)) as (a & tha & Ha & Hh); [lia|].
      exists a. eapply step_enabled; [done|]. apply thread_step_holder. by right.
Qed.

Lemma X24_witness :
  let c := run Scripted.api [Run 0; Run 1; Run 2; Run 0; Run 1; Run 2]
             (boot (connected 3000 (Scripted.make [] [] 1))
                [call "SELECT 1" 0 [] true None; call "SELECT 2" 0 [] true None;
                 call "UPDATE t SET x = 1" 0 [] true (Some 0%Z)]) in
  exists t c', step Scripted.api c (Run t) = Some c'.
Proof.
  apply (X24_calls_never_deadlock Scripted.api (connected 3000 (Scripted.make [] [] 1))
           [call "SELECT 1" 0 [] true None; call "SELECT 2" 0 [] true None;
            call "UPDATE t SET x = 1" 0 [] true (Some 0%Z)]
           [Run 0; Run 1; Run 2; Run 0; Run 1; Run 2]).
  - repeat constructor.
  - exists 2, (at_pc AtAcquire (entry_frame 0 [] (Some 0%Z))
                 (call "UPDATE t SET x = 1" 0 [] true (Some 0%Z))).
    split; reflexivity.
Defined.

(** X25: while a call is inside [Reconnect], between its lock and its
    unlock, where the handle is closed and replaced, no other call is inside
    a submission window or inside [Reconnect]: in every state that calls of
    [ExecStatement] running together can reach, a handle is never closed
    under a submission. *)
Theorem X25_reconnect_excludes_submissions {E} (eng : Engine E) (w : World E)
    ths sched a b tha thb :
  Forall (fun th => pc th = AtEntry) ths ->
  let c := run eng sched (boot w ths) in
  threads c !! a = Some tha -> in_reconnect tha = true ->
  threads c !! b = Some thb -> in_window thb = true \/ in_reconnect thb = true ->
  a = b.
Proof.
  intros Hths c Ha Hra Hb Hwb.
  pose proof (reachable_guard_invariant eng w ths sched Hths) as (Hsh & Hex & Hboth).
  fold c in Hsh, Hex, Hboth.
  destruct (decide (a = b)) as [|Hne]; [done|exfalso].
  assert (holds_exclusive tha = true) as Hha.
  { unfold in_reconnect in Hra. unfold holds_exclusive. by destruct (pc tha). }
  pose proof (tally_ge_1 holds_exclusive _ _ _ Ha Hha) as H1.
  assert (exclusive (guard c) = true) as Hx.
  { destruct (exclusive (guard c)); [done|lia]. }
  rewrite Hx in Hex.
  assert (holds_exclusive thb = true \/ holds_shared thb = true) as [Hhb|Hhb].
  { destruct Hwb as [Hwb|Hrb]; [by apply in_window_holds|left].
    unfold in_reconnect in Hrb. unfold holds_exclusive. by destruct (pc thb). }
  - pose proof (tally_ge_2 holds_exclusive _ _ _ _ _ Hne Ha Hb Hha Hhb). lia.
  - pose proof (tally_ge_1 holds_shared _ _ _ Hb Hhb). specialize (Hboth Hx). lia.
Qed.

Lemma X25_witness :
  let c := run Scripted.api (replicate 6 (Run 0) ++ [Run 1; Run 1])
             (boot (connected 3000 (Scripted.make [(SQLITE_IOERR, [])] [] 1))
                [call "SELECT 1" 0 [] true None; call "SELECT 2" 0 [] true None]) in
  pc <$> threads c = [AtReconnectClose; AtAcquire] /\
  forall b thb,
    threads c !! b = Some thb -> in_window thb = true \/ in_reconnect thb = true ->
    0 = b.
Proof.
  intros c. split; [reflexivity|]. intros b thb.
  refine (X25_reconnect_excludes_submissions Scripted.api
            (connected 3000 (Scripted.make [(SQLITE_IOERR, [])] [] 1))
            [call "SELECT 1" 0 [] true None; call "SELECT 2" 0 [] true None]
            (replicate 6 (Run 0) ++ [Run 1; Run 1]) 0 b _ thb _ _ _).
  - repeat constructor.
  - reflexivity.
  - reflexivity.
Defined.

(** X26: the container handed back is as wide as the last delivered row.
    Whatever the container held and whatever rows came before, after a call
    during which rows were delivered it has exactly as many entries as the
    last of them had columns; a call during which none was delivered hands
    the container back untouched. *)
Theorem X26_container_width {E} (eng : Engine E)
    fuel sql rv res retry pn w o w' tr :
  ExecStatement eng fuel sql rv res retry pn w = Some (o, w', tr) ->
  (delivered tr = [] -> out_results o = res) /\
  (forall rows data, delivered tr = rows ++ [data] ->
     length (out_results o) = length data).
Proof.
  intros Hrun. apply ExecStatement_results in Hrun. rewrite Hrun. split.
  - by intros ->.
  - intros rows data ->. apply collect_length_last.
Qed.

Lemma X26_witness :
  let run :=
    ExecStatement Scripted.api 1 "SELECT a, b FROM t; SELECT c FROM u" 0 [] true None
      (connected 3000
         (Scripted.make [(SQLITE_OK, [[Some "a1"; Some "b1"]; [Some "c1"]])] [] 1)) in
  exists o w' tr,
    run = Some (o, w', tr) /\ returned o = true /\ length (out_results o) = 1 /\
    out_results o = [["a1"; "c1"]].
Proof.
  intros run. eexists _, _, _. split; [vm_compute; reflexivity|].
  assert (Hrun : run = Some _) by (vm_compute; reflexivity).
  split; [reflexivity|]. split; [|reflexivity].
  exact (proj2 (X26_container_width Scripted.api 1
                  "SELECT a, b FROM t; SELECT c FROM u" 0 [] true None _ _ _ _ Hrun)
           [[Some "a1"; Some "b1"]] [Some "c1"] eq_refl).
Defined.

(** A call that heals through a reconnect, run as a thread on its own. *)
Lemma X27_witness :
  let run :=
    ExecStatement Scripted.api 2 "SELECT 1" 0 [] true None
      (connected 3000 (Scripted.make [(SQLITE_IOERR, [])] [(SQLITE_OK, 7%Z)] 1)) in
  exists o w' tr f,
    run = Some (o, w', tr) /\
    thread_steps Scripted.api (call "SELECT 1" 0 [] true None) unlocked
      (connected 3000 (Scripted.make [(SQLITE_IOERR, [])] [(SQLITE_OK, 7%Z)] 1)) tr
      {| pc := Returned true; statementText := "SELECT 1"; retry := true; frame := f |}
      unlocked w' /\
    out_results o = results f.
Proof.
  intros run.
  assert (Hrun : run = Some _) by (vm_compute; reflexivity).
  destruct (solo_thread_refines Scripted.api 2 "SELECT 1" 0 [] true None _ _ _ _ Hrun)
    as (f & Hsteps & _ & Hres & _).
  eexists _, _, _, f. split; [exact Hrun|]. split; [exact Hsteps|exact Hres].
Defined.
